(** * webidl-conversions: the value-level conversion algorithms of
    [src/lib/index.ts], embedded as Rocq functions.

    The module is read with TypeScript's types erased, as an ECMAScript
    module evaluated against the standard global object.  A converter is a
    function from a host value and an options record to a completion:
    either a returned value or a thrown exception. *)

From Stdlib Require Import ZArith List String Ascii Bool Lia.
From Stdlib Require DecimalString.
Import ListNotations.
Local Open Scope Z_scope.

(** ** ECMAScript Numbers

    Every finite binary64 value is an integer multiple of the least
    subnormal [2^-1074].  A finite Number is stored as that integer, so the
    operations the converters use that are exact in IEEE-754 arithmetic
    ([Math.trunc], [Math.floor], [Math.round], [%], comparison, [Math.min],
    [Math.max]) are integer operations, and the ones that round ([+], [-],
    [Math.fround], [Number(bigint)]) round to nearest, ties to even, on the
    integer.  [-0] has a constructor of its own; [Fin 0] is [+0]. *)
Module F64.

Definition scale : Z := 2 ^ 1074.

Inductive f64 : Type :=
| NaN
| PosInf
| NegInf
| NegZero
| Fin (k : Z).

(** The Number whose value is the integer [z] (exact: no rounding). *)
Definition of_int (z : Z) : f64 := Fin (z * scale).

(** [m * 2^e], for [-1074 <= e]. *)
Definition dyadic (m e : Z) : f64 := Fin (m * 2 ^ (e + 1074)).

(** Round the magnitude [a] to [prec] significant bits, keeping it a
    multiple of [2^least]; ties go to the even significand. *)
Definition round_even (prec least a : Z) : Z :=
  let drop := Z.max least (Z.log2 a + 1 - prec) in
  if drop <=? 0 then a
  else
    let q := Z.shiftr a drop in
    let r := a - Z.shiftl q drop in
    let h := Z.shiftl 1 (drop - 1) in
    Z.shiftl (if (h <? r) || ((h =? r) && Z.odd q) then q + 1 else q) drop.

(** A signed magnitude rounded into a binary format with [prec]
    significant bits, least subnormal [2^(least-1074)] and values below
    [2^emax]. *)
Definition narrow (prec least emax : Z) (neg : bool) (a : Z) : f64 :=
  let m := round_even prec least a in
  if 2 ^ (emax + 1074) <=? m then (if neg then NegInf else PosInf)
  else if m =? 0 then (if neg then NegZero else Fin 0)
  else Fin (if neg then - m else m).

Definition round64 (k : Z) : f64 := narrow 53 0 1024 (k <? 0) (Z.abs k).

(** The Number nearest to [(n / d) * 2^-1074] ([0 < d]): the quotient is
    taken with one guard bit and a sticky bit and rounded once. *)
Definition round_div (n d : Z) : f64 :=
  let a := Z.abs n * 2 in
  let sticky := if a mod d =? 0 then 0 else 1 in
  let m := Z.shiftr (round_even 53 2 (2 * (a / d) + sticky)) 2 in
  if 2 ^ (1024 + 1074) <=? m then (if n <? 0 then NegInf else PosInf)
  else if m =? 0 then (if n <? 0 then NegZero else Fin 0)
  else Fin (if n <? 0 then - m else m).

(** The Number denoted by the decimal literal of the rational [n / d]. *)
Definition of_ratio (n d : Z) : f64 := round_div (n * scale) d.

(** [Math.fround]. *)
Definition fround (x : f64) : f64 :=
  match x with
  | Fin k => narrow 24 925 128 (k <? 0) (Z.abs k)
  | _ => x
  end.

(** [Number.isNaN], [Number.isFinite]. *)
Definition isNaN (x : f64) : bool :=
  match x with NaN => true | _ => false end.

Definition isFinite (x : f64) : bool :=
  match x with Fin _ | NegZero => true | _ => false end.

(** The scaled value of a finite Number. *)
Definition val (x : f64) : Z :=
  match x with Fin k => k | _ => 0 end.

(** [x < y] on Numbers: false as soon as one side is NaN. *)
Definition lt (x y : f64) : bool :=
  match x, y with
  | NaN, _ | _, NaN => false
  | PosInf, _ | _, NegInf => false
  | _, PosInf | NegInf, _ => true
  | _, _ => val x <? val y
  end.

Definition gt (x y : f64) : bool := lt y x.

(** [x === y] on Numbers. *)
Definition strict_eq (x y : f64) : bool :=
  match x, y with
  | NaN, _ | _, NaN => false
  | PosInf, PosInf | NegInf, NegInf => true
  | PosInf, _ | _, PosInf | NegInf, _ | _, NegInf => false
  | _, _ => val x =? val y
  end.

(** [Object.is(x, -0)]. *)
Definition is_neg_zero (x : f64) : bool :=
  match x with NegZero => true | _ => false end.

(** Comparisons of a Number with a BigInt compare the mathematical
    values; they are false when the Number is NaN. *)
Definition lt_big (x : f64) (z : Z) : bool :=
  match x with
  | NaN | PosInf => false
  | NegInf => true
  | _ => val x <? z * scale
  end.

Definition gt_big (x : f64) (z : Z) : bool :=
  match x with
  | NaN | NegInf => false
  | PosInf => true
  | _ => z * scale <? val x
  end.

Definition ge_big (x : f64) (z : Z) : bool :=
  match x with
  | NaN | NegInf => false
  | PosInf => true
  | _ => z * scale <=? val x
  end.

Definition le_big (x : f64) (z : Z) : bool :=
  match x with
  | NaN | PosInf => false
  | NegInf => true
  | _ => val x <=? z * scale
  end.

(** [Math.trunc], [Math.floor], [Math.round] (ties towards +Infinity; a
    negative argument that rounds to zero gives [-0]). *)
Definition trunc (x : f64) : f64 :=
  match x with
  | Fin k =>
      let q := Z.quot k scale in
      if (q =? 0) && (k <? 0) then NegZero else Fin (q * scale)
  | _ => x
  end.

Definition floor (x : f64) : f64 :=
  match x with
  | Fin k => Fin (k / scale * scale)
  | _ => x
  end.

Definition round (x : f64) : f64 :=
  match x with
  | Fin k =>
      let q := (2 * k + scale) / (2 * scale) in
      if (q =? 0) && (k <? 0) then NegZero else Fin (q * scale)
  | _ => x
  end.

(** [Math.max] and [Math.min] on two Numbers: NaN is contagious and
    [-0] is below [+0]. *)
Definition max (x y : f64) : f64 :=
  if isNaN x || isNaN y then NaN
  else if lt x y then y
  else if lt y x then x
  else if is_neg_zero x then y else x.

Definition min (x y : f64) : f64 :=
  if isNaN x || isNaN y then NaN
  else if lt x y then x
  else if lt y x then y
  else if is_neg_zero x then x else y.

Definition neg (x : f64) : f64 :=
  match x with
  | NaN => NaN
  | PosInf => NegInf
  | NegInf => PosInf
  | NegZero => Fin 0
  | Fin k => if k =? 0 then NegZero else Fin (- k)
  end.

(** [x + y] and [x - y]. *)
Definition add (x y : f64) : f64 :=
  match x, y with
  | NaN, _ | _, NaN => NaN
  | PosInf, NegInf | NegInf, PosInf => NaN
  | PosInf, _ | _, PosInf => PosInf
  | NegInf, _ | _, NegInf => NegInf
  | NegZero, NegZero => NegZero
  | NegZero, z | z, NegZero => z
  | Fin a, Fin b => round64 (a + b)
  end.

Definition sub (x y : f64) : f64 := add x (neg y).

Definition signbit (x : f64) : bool :=
  match x with
  | NegInf | NegZero => true
  | Fin k => k <? 0
  | _ => false
  end.

Definition is_zero (x : f64) : bool :=
  match x with
  | NegZero => true
  | Fin k => k =? 0
  | _ => false
  end.

(** [x * y]. *)
Definition mul (x y : f64) : f64 :=
  let s := xorb (signbit x) (signbit y) in
  if isNaN x || isNaN y then NaN
  else if isFinite x && isFinite y then
    let p := val x * val y in
    if p =? 0 then (if s then NegZero else Fin 0) else round_div p scale
  else if is_zero x || is_zero y then NaN
  else if s then NegInf else PosInf.

(** [x % y]: the truncating remainder, with the sign of the dividend. *)
Definition rem (x y : f64) : f64 :=
  match x, y with
  | NaN, _ | _, NaN => NaN
  | PosInf, _ | NegInf, _ => NaN
  | _, NegZero => NaN
  | _, PosInf | _, NegInf => x
  | NegZero, Fin b => if b =? 0 then NaN else NegZero
  | Fin a, Fin b =>
      if b =? 0 then NaN
      else
        let r := Z.rem a b in
        if (r =? 0) && (a <? 0) then NegZero else Fin r
  end.

(** [x | 0]: ToInt32. *)
Definition toInt32 (x : f64) : Z :=
  match x with
  | Fin k =>
      let m := Z.quot k scale mod 2 ^ 32 in
      if 2 ^ 31 <=? m then m - 2 ^ 32 else m
  | _ => 0
  end.

(** [BigInt(x)]: defined on integral Numbers only. *)
Definition toBigInt (x : f64) : option Z :=
  match x with
  | Fin k => if k mod scale =? 0 then Some (k / scale) else None
  | NegZero => Some 0
  | _ => None
  end.

(** [Number(z)] for a BigInt [z]. *)
Definition of_bigint (z : Z) : f64 := round64 (z * scale).

(** A finite Number that binary64 really has: at most 53 significant
    bits and a magnitude below [2^1024]. *)
Definition representable (x : f64) : bool :=
  match x with
  | Fin k => (round_even 53 0 (Z.abs k) =? Z.abs k) && (Z.abs k <? 2 ^ 2098)
  | _ => true
  end.

End F64.
Export F64.


(** ** Host values *)

(** An ECMAScript string: its sequence of 16-bit code units. *)
Definition jsstring : Type := list Z.

Definition jsstring_of (s : string) : jsstring :=
  map (fun c => Z.of_nat (nat_of_ascii c)) (list_ascii_of_string s).

Inductive TypedArrayName : Type :=
| Int8Array | Uint8Array | Uint8ClampedArray | Int16Array | Uint16Array
| Int32Array | Uint32Array | BigInt64Array | BigUint64Array
| Float32Array | Float64Array.

(** Objects, as far as the converters can tell them apart.  [id] is the
    identity of the reference; a buffer carries whether it is detached at
    the time of the call; a view carries its backing buffer. *)
Inductive JsObject : Type :=
| ArrayBufferObj (id : nat) (detached : bool)
| SharedArrayBufferObj (id : nat)
| DataViewObj (id : nat) (buffer : JsObject)
| TypedArrayObj (id : nat) (name : TypedArrayName) (buffer : JsObject)
| FunctionObj (id : nat)
| IntrinsicFunction (name : string)
| OrdinaryObj (id : nat).

Inductive JsValue : Type :=
| VUndefined
| VNull
| VBoolean (b : bool)
| VNumber (x : f64)
| VString (s : jsstring)
| VSymbol (id : nat)
| VBigInt (z : Z)
| VObject (o : JsObject).

(** [enum JsTypes] and [type]. *)
Module JsTypes.
Inductive t : Type :=
| Null | Undefined | Boolean | Number | String | Symbol | BigInt | Object.
End JsTypes.

Definition type (V : JsValue) : JsTypes.t :=
  match V with
  | VNull => JsTypes.Null
  | VUndefined => JsTypes.Undefined
  | VBoolean _ => JsTypes.Boolean
  | VNumber _ => JsTypes.Number
  | VString _ => JsTypes.String
  | VSymbol _ => JsTypes.Symbol
  | VBigInt _ => JsTypes.BigInt
  | VObject _ => JsTypes.Object
  end.

(** ** Exceptions and completions *)

(** The constructor an error object was built with: this realm's
    [TypeError], or the [TypeError] of [opts.globals]. *)
Inductive ErrorCtor : Type :=
| TypeErrorCtor
| RealmTypeError (realm : nat).

(** What a call can throw.  [ErrorObject] is an error the module builds
    itself, with its message; the [Engine...] exceptions are raised by the
    language or by an intrinsic (their message is implementation-defined);
    [HostThrown] is whatever caller-supplied code throws. *)
Inductive Exception : Type :=
| ErrorObject (ctor : ErrorCtor) (message : string)
| EngineTypeError
| EngineRangeError
| EngineReferenceError (name : string)
| HostThrown (v : JsValue).

Inductive Completion (A : Type) : Type :=
| Normal (a : A)
| Throw (e : Exception).

Arguments Normal {A} a.
Arguments Throw {A} e.

Definition bind {A B : Type} (c : Completion A) (k : A -> Completion B)
  : Completion B :=
  match c with
  | Normal a => k a
  | Throw e => Throw e
  end.

Notation "x <- c ;; k" := (bind c (fun x => k))
  (at level 61, c at next level, right associativity).

(** ** Options *)

(** [opts.globals]: the constructors of another realm.  Each is optional
    in [globals_t]. *)
Record Globals : Type := {
  g_Number : option (JsValue -> Completion f64);
  g_String : option (JsValue -> Completion jsstring);
  g_TypeError : option nat
}.

(** The options record.  A flag is [true] when the property is truthy;
    [context] is the empty string when the property is absent. *)
Module opts.
Record t : Type := {
  enforceRange : bool;
  clamp : bool;
  treatNullAsEmptyString : bool;
  allowShared : bool;
  context : string;
  globals : option Globals
}.

(** [{}], which is also what an omitted argument defaults to. *)
Definition empty : t :=
  {| enforceRange := false; clamp := false;
     treatNullAsEmptyString := false; allowShared := false;
     context := EmptyString; globals := None |}.
End opts.

(** ** The host

    What the converters delegate to the engine and to caller-supplied
    code, and that no claim here depends on. *)
Record Host : Type := {
  (** StringToNumber of the language specification. *)
  StringToNumber : jsstring -> f64;
  (** ToNumber on an object: ToPrimitive with hint number (may run user
      code), then ToNumber. *)
  ObjectToNumber : JsObject -> Completion f64;
  (** Number::toString for a finite Number that is not an integer below
      10^21. *)
  NumberToString : f64 -> string;
  (** ToString on an object. *)
  ObjectToString : JsObject -> Completion jsstring;
  (** SymbolDescriptiveString. *)
  SymbolDescriptiveString : nat -> jsstring;
  (** [[Call]] of a callable object, with a this value and arguments. *)
  Call : JsObject -> JsValue -> list JsValue -> Completion JsValue;
  (** [new Uint8Array(V)] when [V] is not a buffer. *)
  Uint8ArrayFrom : JsValue -> Completion unit
}.

(** ** Identifier resolution

    The names declared at the top level of the module, in source order,
    and the property names of the standard global object.  An identifier
    that is in neither list is unresolvable: evaluating it throws a
    ReferenceError. *)
Definition module_bindings : list string :=
  [ "Object"; "is"; "Math"; "trunc"; "floor"; "round"; "min"; "max";
    "fround"; "Reflect"; "apply"; "Number"; "MAX_SAFE_INTEGER";
    "MIN_SAFE_INTEGER"; "isFinite"; "isNaN"; "BigInt"; "asUintN"; "asIntN";
    "TypeError"; "String"; "fromCodePoint"; "Array"; "Uint8Array";
    "DataView"; "ArrayBuffer"; "undefined";
    "clamp"; "makeException"; "toNumber"; "JsTypes"; "type"; "evenRound";
    "integerPart"; "Sign"; "sign"; "modulo"; "censorNegativeZero";
    "createIntegerConversion"; "createLongLongConversion"; "any";
    "export_void"; "export_boolean"; "export_byte"; "export_octet";
    "export_short"; "export_unsigned_short"; "export_long";
    "export_unsigned_long"; "export_long_long";
    "export_unsigned_long_long"; "export_double";
    "export_unrestricted_double"; "export_float";
    "export_unrestricted_float"; "export_DOMString";
    "codePointAt"; "String_iterator"; "emptyList"; "zeroList";
    "export_ByteString"; "push"; "join"; "export_USVString";
    "export_object"; "convertCallbackFunction"; "getOwnPropertyDescriptor";
    "getGetter"; "abByteLengthGetter"; "sabByteLengthGetter";
    "isNonSharedArrayBuffer"; "isSharedArrayBuffer";
    "isArrayBufferDetached"; "export_ArrayBuffer"; "dvByteLengthGetter";
    "dvBufferGetter"; "export_DataView"; "TypedArray";
    "typedArrayNameGetter"; "typedArrayBufferGetter";
    "specializeTypedArrayConverter"; "export_Int8Array";
    "export_Uint8Array"; "export_Uint16Array"; "export_Int16Array";
    "export_Uint32Array"; "export_Int32Array"; "export_BigUint64Array";
    "export_BigInt64Array"; "export_Float32Array"; "export_Float64Array";
    "export_Uint8ClampedArray"; "export_ArrayBufferView";
    "export_BufferSource"; "export_DOMTimeStamp"; "export_Function";
    "export_VoidFunction" ]%string.

Definition global_object_names : list string :=
  [ "globalThis"; "Infinity"; "NaN"; "undefined"; "eval"; "isFinite";
    "isNaN"; "parseFloat"; "parseInt"; "decodeURI"; "decodeURIComponent";
    "encodeURI"; "encodeURIComponent"; "escape"; "unescape";
    "AggregateError"; "Array"; "ArrayBuffer"; "BigInt"; "BigInt64Array";
    "BigUint64Array"; "Boolean"; "DataView"; "Date"; "Error"; "EvalError";
    "FinalizationRegistry"; "Float32Array"; "Float64Array"; "Function";
    "Int8Array"; "Int16Array"; "Int32Array"; "Map"; "Number"; "Object";
    "Promise"; "Proxy"; "RangeError"; "ReferenceError"; "RegExp"; "Set";
    "SharedArrayBuffer"; "String"; "Symbol"; "SyntaxError"; "TypeError";
    "Uint8Array"; "Uint8ClampedArray"; "Uint16Array"; "Uint32Array";
    "URIError"; "WeakMap"; "WeakRef"; "WeakSet"; "Atomics"; "JSON"; "Math";
    "Reflect" ]%string.

Definition resolvable (name : string) : bool :=
  existsb (String.eqb name) (module_bindings ++ global_object_names).

(** Evaluate the identifier [name], whose value is [v] when it resolves. *)
Definition ident {A : Type} (name : string) (v : A) : Completion A :=
  if resolvable name then Normal v else Throw (EngineReferenceError name).

(** ** Numeric values: a Number or a BigInt

    The bounds of [createIntegerConversion] are BigInts ([1n << ...],
    [0n]); those of [createLongLongConversion] are Numbers. *)
Inductive Numeric : Type :=
| Num (x : f64)
| Big (z : Z).

Definition MAX_SAFE_INTEGER : Z := 2 ^ 53 - 1.
Definition MIN_SAFE_INTEGER : Z := - (2 ^ 53 - 1).

Definition decimal (z : Z) : string :=
  DecimalString.NilZero.string_of_int (Z.to_int z).

(** [x < b], [x > b], [x >= b], [x <= b] for a Number [x]: a mixed
    comparison is allowed and compares values. *)
Definition lt_numeric (x : f64) (b : Numeric) : bool :=
  match b with Num y => F64.lt x y | Big z => lt_big x z end.

Definition gt_numeric (x : f64) (b : Numeric) : bool :=
  match b with Num y => F64.gt x y | Big z => gt_big x z end.

Definition ge_numeric (x : f64) (b : Numeric) : bool :=
  match b with
  | Num y => F64.lt y x || F64.strict_eq x y
  | Big z => ge_big x z
  end.

Definition le_numeric (x : f64) (b : Numeric) : bool :=
  match b with
  | Num y => F64.lt x y || F64.strict_eq x y
  | Big z => le_big x z
  end.

(** An argument of [Math.max] or [Math.min] goes through ToNumber, which
    throws a TypeError on a BigInt. *)
Definition Math_arg (a : Numeric) : Completion f64 :=
  match a with
  | Num x => Normal x
  | Big _ => Throw EngineTypeError
  end.

Definition Math_max (a b : Numeric) : Completion f64 :=
  x <- Math_arg a;; y <- Math_arg b;; Normal (F64.max x y).

Definition Math_min (a b : Numeric) : Completion f64 :=
  x <- Math_arg a;; y <- Math_arg b;; Normal (F64.min x y).

(** [a - b]: a TypeError when one operand is a Number and the other a
    BigInt. *)
Definition Numeric_sub (a b : Numeric) : Completion Numeric :=
  match a, b with
  | Num x, Num y => Normal (Num (F64.sub x y))
  | Big x, Big y => Normal (Big (x - y))
  | _, _ => Throw EngineTypeError
  end.

Definition value_of (n : Numeric) : JsValue :=
  match n with Num x => VNumber x | Big z => VBigInt z end.

(** [BigInt.asUintN], [BigInt.asIntN]. *)
Definition asUintN (bits z : Z) : Z := z mod 2 ^ bits.

Definition asIntN (bits z : Z) : Z :=
  let m := z mod 2 ^ bits in
  if 2 ^ (bits - 1) <=? m then m - 2 ^ bits else m.

(** The pair [[lowerBound, upperBound]] that [createIntegerConversion]
    computes once per converter. *)
Definition integer_bounds (bitLength : Z) (unsigned : bool)
  : Numeric * Numeric :=
  let isSigned := negb unsigned in
  let twoToTheBitLength := Z.shiftl 1 bitLength in
  let twoToOneLessThanTheBitLength := Z.shiftr twoToTheBitLength 1 in
  if 64 =? bitLength then
    (Big MAX_SAFE_INTEGER,
     if negb isSigned then Num (Fin 0) else Big MIN_SAFE_INTEGER)
  else if negb isSigned then (Big 0, Big (twoToTheBitLength - 1))
  else (Big (- twoToOneLessThanTheBitLength),
        Big (twoToOneLessThanTheBitLength - 1)).

(** [const clamp = (x, lowerBound, upperBound) =>
      min(max(x, lowerBound), upperBound)] *)
Definition clamp (x lowerBound upperBound : Numeric) : Completion f64 :=
  m <- Math_max x lowerBound;; Math_min (Num m) upperBound.

(** [function censorNegativeZero(x) { return x === 0 ? 0 : x; }] *)
Definition censorNegativeZero (x : f64) : f64 :=
  if F64.strict_eq x (Fin 0) then Fin 0 else x.

Definition integerPart (n : f64) : f64 := censorNegativeZero (F64.trunc n).

Definition evenRound (x : f64) : f64 :=
  let int := F64.trunc x in
  let decimals := F64.sub x int in
  let and := Z.land (toInt32 int) 1 in
  let rounding_mode :=
    if (F64.gt x (Fin 0) && F64.strict_eq decimals (dyadic 1 (-1))
        && (and =? 0))
       || (F64.lt x (Fin 0) && F64.strict_eq decimals (dyadic (-1) (-1))
           && (and =? 1))
    then F64.floor else F64.round in
  censorNegativeZero (rounding_mode x).

(** [enum Sign { Negative = -1, Positive = 1 }] *)
Inductive Sign : Type := Negative | Positive.

Definition Sign_eqb (a b : Sign) : bool :=
  match a, b with
  | Negative, Negative | Positive, Positive => true
  | _, _ => false
  end.

(** [function sign(x) { return x < 0 ? Negative : Positive; }]: the body
    names the members of [enum Sign] without the [Sign.] qualifier, and an
    enum member is not a binding of the enclosing scope. *)
Definition sign (x : f64) : Completion Sign :=
  if F64.lt x (Fin 0) then ident "Negative" Negative
  else ident "Positive" Positive.

Definition modulo (x y : f64) : Completion f64 :=
  let signMightNotMatch := F64.rem x y in
  sy <- sign y;;
  sx <- sign signMightNotMatch;;
  Normal (if negb (Sign_eqb sy sx) then F64.add signMightNotMatch y
          else signMightNotMatch).

(** [opts.context ? opts.context : "Value"] *)
Definition context_label (o : opts.t) : string :=
  if String.eqb (opts.context o) "" then "Value" else opts.context o.

(** [makeException]: the error object a converter throws; with
    [opts.globals] the constructor is looked up there, and constructing
    with a missing one is itself a TypeError. *)
Definition makeException (ErrorType : ErrorCtor) (message : string)
  (o : opts.t) : Exception :=
  let text := (context_label o ++ " " ++ message ++ ".")%string in
  match opts.globals o with
  | None => ErrorObject ErrorType text
  | Some g =>
      match g_TypeError g with
      | Some realm => ErrorObject (RealmTypeError realm) text
      | None => EngineTypeError
      end
  end.

Section Conversions.

Variable host : Host.

(** ToNumber, as the unary [+] and the intrinsic [Number] apply it. *)
Definition ToNumber (V : JsValue) : Completion f64 :=
  match V with
  | VUndefined => Normal NaN
  | VNull => Normal (Fin 0)
  | VBoolean b => Normal (if b then of_int 1 else Fin 0)
  | VNumber x => Normal x
  | VString s => Normal (StringToNumber host s)
  | VSymbol _ => Throw EngineTypeError
  | VBigInt _ => Throw EngineTypeError
  | VObject o => ObjectToNumber host o
  end.

Definition toNumber (value : JsValue) (o : opts.t) : Completion f64 :=
  match opts.globals o with
  | None => ToNumber value
  | Some g =>
      match value with
      | VBigInt _ =>
          match g_TypeError g with
          | Some realm =>
              Throw (ErrorObject (RealmTypeError realm)
                       "Cannot convert a BigInt value to a number")
          | None => Throw EngineTypeError
          end
      | _ =>
          match g_Number g with
          | Some Number => Number value
          | None => Throw EngineTypeError
          end
      end
  end.

(** Number::toString, spelled out for the integers the messages print. *)
Definition Number_toString (x : f64) : string :=
  match x with
  | NaN => "NaN"
  | PosInf => "Infinity"
  | NegInf => "-Infinity"
  | NegZero => "0"
  | Fin k =>
      if (k mod scale =? 0) && (Z.abs (k / scale) <? 10 ^ 21)
      then decimal (k / scale)
      else NumberToString host x
  end.

Definition Numeric_toString (n : Numeric) : string :=
  match n with
  | Num x => Number_toString x
  | Big z => decimal z
  end.

Definition range_message (lowerBound upperBound : Numeric) : string :=
  ("is outside the accepted range of " ++ Numeric_toString lowerBound
     ++ " to " ++ Numeric_toString upperBound ++ ", inclusive")%string.

Definition Converter : Type := JsValue -> opts.t -> Completion JsValue.

Definition createIntegerConversion (bitLength : Z) (unsigned : bool)
  : Converter :=
  let isSigned := negb unsigned in
  let twoToTheBitLength := Z.shiftl 1 bitLength in
  let twoToOneLessThanTheBitLength := Z.shiftr twoToTheBitLength 1 in
  let '(lowerBound, upperBound) := integer_bounds bitLength unsigned in
  fun V o =>
    x <- toNumber V o;;
    let x := censorNegativeZero x in
    if opts.enforceRange o then
      if negb (F64.isFinite x) then
        Throw (makeException TypeErrorCtor "is not a finite number" o)
      else
        let x := integerPart x in
        if lt_numeric x lowerBound || gt_numeric x upperBound then
          Throw (makeException TypeErrorCtor
                   (range_message lowerBound upperBound) o)
        else Normal (VNumber x)
    else if negb (F64.isNaN x) && opts.clamp o then
      x <- clamp (Num x) lowerBound upperBound;;
      Normal (VNumber (evenRound x))
    else if negb (F64.isFinite x) || F64.strict_eq x (Fin 0) then
      Normal (VNumber (Fin 0))
    else
      let x := integerPart x in
      if ge_numeric x lowerBound && le_numeric x upperBound then
        Normal (VNumber x)
      else
        x <- modulo x (of_bigint twoToTheBitLength);;
        if isSigned && ge_big x twoToOneLessThanTheBitLength then
          r <- Numeric_sub (Num x) (Big twoToTheBitLength);;
          Normal (value_of r)
        else Normal (VNumber x).

Definition createLongLongConversion (bitLength : Z) (unsigned : bool)
  : Converter :=
  let upperBound := Num (of_int MAX_SAFE_INTEGER) in
  let lowerBound :=
    if unsigned then Num (Fin 0) else Num (of_int MIN_SAFE_INTEGER) in
  let asBigIntN := if unsigned then asUintN else asIntN in
  fun V o =>
    x <- toNumber V o;;
    let x := censorNegativeZero x in
    if opts.enforceRange o then
      if negb (F64.isFinite x) then
        Throw (makeException TypeErrorCtor "is not a finite number" o)
      else
        let x := integerPart x in
        if lt_numeric x lowerBound || gt_numeric x upperBound then
          Throw (makeException TypeErrorCtor
                   (range_message lowerBound upperBound) o)
        else Normal (VNumber x)
    else if negb (F64.isNaN x) && opts.clamp o then
      x <- clamp (Num x) lowerBound upperBound;;
      Normal (VNumber (evenRound x))
    else if negb (F64.isFinite x) || F64.strict_eq x (Fin 0) then
      Normal (VNumber (Fin 0))
    else
      match toBigInt (integerPart x) with
      | Some xBigInt => Normal (VBigInt (asBigIntN bitLength xBigInt))
      | None => Throw EngineRangeError
      end.

Definition export_byte : Converter := createIntegerConversion 8 false.
Definition export_octet : Converter := createIntegerConversion 8 true.
Definition export_short : Converter := createIntegerConversion 16 false.
Definition export_unsigned_short : Converter :=
  createIntegerConversion 16 true.
Definition export_long : Converter := createIntegerConversion 32 false.
Definition export_unsigned_long : Converter :=
  createIntegerConversion 32 true.
Definition export_long_long : Converter :=
  createLongLongConversion 64 false.
Definition export_unsigned_long_long : Converter :=
  createLongLongConversion 64 true.

Definition export_double : Converter := fun V o =>
  x <- toNumber V o;;
  if negb (F64.isFinite x) then
    Throw (makeException TypeErrorCtor
             "is not a finite floating-point value" o)
  else Normal (VNumber x).

Definition export_unrestricted_double : Converter := fun V o =>
  x <- toNumber V o;;
  Normal (VNumber x).

Definition export_float : Converter := fun V o =>
  x <- toNumber V o;;
  if negb (F64.isFinite x) then
    Throw (makeException TypeErrorCtor
             "is not a finite floating-point value" o)
  else if is_neg_zero x then Normal (VNumber NegZero)
  else
    let y := F64.fround x in
    if negb (F64.isFinite y) then
      Throw (makeException TypeErrorCtor
        "is outside the range of a single-precision floating-point value"
        o)
    else Normal (VNumber y).

Definition export_unrestricted_float : Converter := fun V o =>
  x <- toNumber V o;;
  if F64.isNaN x then Normal (VNumber x)
  else if is_neg_zero x then Normal (VNumber NegZero)
  else Normal (VNumber (F64.fround x)).

(** *** Strings *)

(** The intrinsic [String] called as a function. *)
Definition String_ (V : JsValue) : Completion jsstring :=
  match V with
  | VUndefined => Normal (jsstring_of "undefined")
  | VNull => Normal (jsstring_of "null")
  | VBoolean b => Normal (jsstring_of (if b then "true" else "false"))
  | VNumber x => Normal (jsstring_of (Number_toString x))
  | VString s => Normal s
  | VSymbol id => Normal (SymbolDescriptiveString host id)
  | VBigInt z => Normal (jsstring_of (decimal z))
  | VObject o => ObjectToString host o
  end.

Definition export_DOMString (V : JsValue) (o : opts.t)
  : Completion jsstring :=
  match V with
  | VNull =>
      if opts.treatNullAsEmptyString o then Normal []
      else
        match opts.globals o with
        | None => String_ V
        | Some g =>
            match g_String g with
            | Some StringCtor => StringCtor V
            | None => Throw EngineTypeError
            end
        end
  | VSymbol _ =>
      Throw (makeException TypeErrorCtor
               "is a symbol, which cannot be converted to a string" o)
  | _ =>
      match opts.globals o with
      | None => String_ V
      | Some g =>
          match g_String g with
          | Some StringCtor => StringCtor V
          | None => Throw EngineTypeError
          end
      end
  end.

(** [String.prototype.charCodeAt]: the code unit at [pos], NaN out of
    range. *)
Definition String_prototype_charCodeAt (S : jsstring) (pos : Z) : f64 :=
  if (0 <=? pos) && (pos <? Z.of_nat (List.length S))
  then of_int (nth (Z.to_nat pos) S 0)
  else NaN.

(** [String.fromCodePoint] of one Number: a RangeError unless it is an
    integer in [0, 0x10FFFF]; above 0xFFFF the result is a surrogate
    pair. *)
Definition fromCodePoint (x : f64) : Completion jsstring :=
  match toBigInt x with
  | Some cp =>
      if (0 <=? cp) && (cp <=? 0x10FFFF) then
        if cp <=? 0xFFFF then Normal [cp]
        else Normal [0xD800 + Z.shiftr (cp - 0x10000) 10;
                     0xDC00 + Z.land (cp - 0x10000) 0x3FF]
      else Throw EngineRangeError
  | None => Throw EngineRangeError
  end.

(** The [for] loop of [export_USVString]: [i] is the loop counter, [U]
    the pieces pushed so far.  Each iteration advances [i], so
    [n - i] iterations are enough; [fuel] counts them.  The body calls
    [charCodeAt], which no declaration of the module binds (the
    destructuring of [String.prototype] binds [codePointAt] and the
    iterator only). *)
Fixpoint USVString_loop (fuel : nat) (S : jsstring) (n i : Z)
  (U : list jsstring) : Completion (list jsstring) :=
  match fuel with
  | O => Normal U
  | Datatypes.S fuel' =>
      if negb (i <? n) then Normal U
      else
        charCodeAt <- ident "charCodeAt" String_prototype_charCodeAt;;
        let c := charCodeAt S i in
        if F64.lt c (of_int 0xD800) || F64.gt c (of_int 0xDFFF) then
          p <- fromCodePoint c;;
          USVString_loop fuel' S n (i + 1) (U ++ [p])
        else if (F64.lt (of_int 0xDC00) c || F64.strict_eq (of_int 0xDC00) c)
                && (F64.lt c (of_int 0xDFFF) || F64.strict_eq c (of_int 0xDFFF))
                || (i =? n - 1) then
          p <- fromCodePoint (of_int 0xFFFD);;
          USVString_loop fuel' S n (i + 1) (U ++ [p])
        else
          charCodeAt <- ident "charCodeAt" String_prototype_charCodeAt;;
          let d := charCodeAt S (i + 1) in
          if (F64.lt (of_int 0xDC00) d || F64.strict_eq (of_int 0xDC00) d)
             && (F64.lt d (of_int 0xDFFF) || F64.strict_eq d (of_int 0xDFFF))
          then
            let a := Z.land (toInt32 c) 0x3FF in
            let b := Z.land (toInt32 d) 0x3FF in
            p <- fromCodePoint
                   (F64.add
                      (F64.add (of_int (Z.shiftl 2 15))
                         (F64.mul (of_int (Z.shiftl 2 9)) (of_int a)))
                      (of_int b));;
            USVString_loop fuel' S n (i + 2) (U ++ [p])
          else
            p <- fromCodePoint (of_int 0xFFFD);;
            USVString_loop fuel' S n (i + 1) (U ++ [p])
  end.

Definition export_USVString (V : JsValue) (o : opts.t)
  : Completion JsValue :=
  S <- export_DOMString V o;;
  let n := Z.of_nat (List.length S) in
  U <- USVString_loop (List.length S) S n 0 [];;
  Normal (VString (List.concat U)).

(** *** Buffers and views *)

(** [get ArrayBuffer.prototype.byteLength] applied to [V] returns for an
    ArrayBuffer, detached or not, and throws for anything else. *)
Definition isNonSharedArrayBuffer (V : JsValue) : bool :=
  match V with
  | VObject (ArrayBufferObj _ _) => true
  | _ => false
  end.

(** [get SharedArrayBuffer.prototype.byteLength] applied to [V]. *)
Definition isSharedArrayBuffer (V : JsValue) : bool :=
  match V with
  | VObject (SharedArrayBufferObj _) => true
  | _ => false
  end.

(** [new Uint8Array(V)] throws on a detached ArrayBuffer. *)
Definition isArrayBufferDetached (V : JsValue) : bool :=
  match V with
  | VObject (ArrayBufferObj _ detached) => detached
  | VObject (SharedArrayBufferObj _) => false
  | _ =>
      match Uint8ArrayFrom host V with
      | Normal _ => false
      | Throw _ => true
      end
  end.

Definition export_ArrayBuffer : Converter := fun V o =>
  if negb (isNonSharedArrayBuffer V) then
    if opts.allowShared o && negb (isSharedArrayBuffer V) then
      Throw (makeException TypeErrorCtor
               "is not an ArrayBuffer or SharedArrayBuffer" o)
    else Throw (makeException TypeErrorCtor "is not an ArrayBuffer" o)
  else if isArrayBufferDetached V then
    Throw (makeException TypeErrorCtor "is a detached ArrayBuffer" o)
  else Normal V.

Definition IsCallable (V : JsValue) : bool :=
  match V with
  | VObject (FunctionObj _) | VObject (IntrinsicFunction _) => true
  | _ => false
  end.

(** [Reflect.apply(target, thisArgument, argumentsList)]: a TypeError
    when [target] is not callable. *)
Definition apply (target thisArgument : JsValue) (args : list JsValue)
  : Completion JsValue :=
  match target with
  | VObject f =>
      if IsCallable target then Call host f thisArgument args
      else Throw EngineTypeError
  | _ => Throw EngineTypeError
  end.

(** The accessors taken from [DataView.prototype]. *)
Definition dvByteLengthGetter : JsValue :=
  VObject (IntrinsicFunction "get DataView.prototype.byteLength").

(** [get DataView.prototype.buffer], by its this value. *)
Definition dvBufferGetter (this : JsValue) : Completion JsValue :=
  match this with
  | VObject (DataViewObj _ buffer) => Normal (VObject buffer)
  | _ => Throw EngineTypeError
  end.

(** [export_DataView].  The probe is written
    [apply(V, dvByteLengthGetter, emptyList)]: the target of the call is
    [V] and the accessor is its this value.  [dvBufferGetter(V)] is a
    plain call: the accessor runs with an undefined this value and [V]
    as an argument it does not read. *)
Definition export_DataView : Converter := fun V o =>
  match apply V dvByteLengthGetter [] with
  | Throw _ => Throw (makeException TypeErrorCtor "is not a DataView" o)
  | Normal _ =>
      buffer <- dvBufferGetter VUndefined;;
      if negb (opts.allowShared o) && isSharedArrayBuffer buffer then
        Throw (makeException TypeErrorCtor
                 "is backed by a SharedArrayBuffer, which is not allowed"
                 o)
      else if isArrayBufferDetached buffer then
        Throw (makeException TypeErrorCtor
                 "is backed by a detached ArrayBuffer" o)
      else Normal V
  end.

(** [ArrayBuffer.isView]. *)
Definition isView (V : JsValue) : bool :=
  match V with
  | VObject (DataViewObj _ _) | VObject (TypedArrayObj _ _ _) => true
  | _ => false
  end.

(** The property read [V.buffer] on a view: the accessor of its prototype
    runs with [V] as this value. *)
Definition get_buffer (V : JsValue) : Completion JsValue :=
  match V with
  | VObject (DataViewObj _ buffer) | VObject (TypedArrayObj _ _ buffer) =>
      Normal (VObject buffer)
  | VUndefined | VNull => Throw EngineTypeError
  | _ => Normal VUndefined
  end.

Definition export_ArrayBufferView : Converter := fun V o =>
  if negb (isView V) then
    Throw (makeException TypeErrorCtor
             "is not a view on an ArrayBuffer or SharedArrayBuffer" o)
  else
    buffer <- get_buffer V;;
    if negb (opts.allowShared o) && isSharedArrayBuffer buffer then
      Throw (makeException TypeErrorCtor
               "is a view on a SharedArrayBuffer, which is not allowed" o)
    else if isArrayBufferDetached buffer then
      Throw (makeException TypeErrorCtor
               "is a view on a detached ArrayBuffer" o)
    else Normal V.

(** [export_BufferSource].  The view branch reads [const { buffer } = A],
    and [A] is bound nowhere (no value stands behind it: [VUndefined] fills
    the place). *)
Definition export_BufferSource : Converter := fun V o =>
  if isView V then
    A <- ident "A" VUndefined;;
    buffer <- get_buffer A;;
    if negb (opts.allowShared o) && isSharedArrayBuffer buffer then
      Throw (makeException TypeErrorCtor
               "is a view on a SharedArrayBuffer, which is not allowed" o)
    else if isArrayBufferDetached buffer then
      Throw (makeException TypeErrorCtor
               "is a view on a detached ArrayBuffer" o)
    else Normal V
  else if negb (opts.allowShared o) && negb (isNonSharedArrayBuffer V) then
    Throw (makeException TypeErrorCtor
             "is not an ArrayBuffer or a view on one" o)
  else if opts.allowShared o && negb (isSharedArrayBuffer V)
          && negb (isNonSharedArrayBuffer V) then
    Throw (makeException TypeErrorCtor
             "is not an ArrayBuffer, SharedArrayBuffer, or a view on one" o)
  else if isArrayBufferDetached V then
    Throw (makeException TypeErrorCtor "is a detached ArrayBuffer" o)
  else Normal V.

(** *** Pass-through converters *)

(** [const any = (V) => V], [export_void], and [export_boolean], which is
    [!!val]: ToBoolean. *)
Definition any : Converter := fun V _ => Normal V.

Definition export_void : Converter := fun _ _ => Normal VUndefined.

Definition ToBoolean (V : JsValue) : bool :=
  match V with
  | VUndefined | VNull => false
  | VBoolean b => b
  | VNumber x => negb (F64.isNaN x || F64.is_zero x)
  | VString s => match s with [] => false | _ => true end
  | VSymbol _ => true
  | VBigInt z => negb (z =? 0)
  | VObject _ => true
  end.

Definition export_boolean : Converter := fun val _ =>
  Normal (VBoolean (ToBoolean val)).

(** [export_object]: [type(V) !== "Object"] fails. *)
Definition export_object : Converter := fun V o =>
  match type V with
  | JsTypes.Object => Normal V
  | _ => Throw (makeException TypeErrorCtor "is not an object" o)
  end.

(** [convertCallbackFunction]: [typeof V !== "function"] fails; the
    callable objects are the ones whose typeof is "function". *)
Definition convertCallbackFunction : Converter := fun V o =>
  if negb (IsCallable V) then
    Throw (makeException TypeErrorCtor "is not a function" o)
  else Normal V.

Definition export_Function : Converter := convertCallbackFunction.
Definition export_VoidFunction : Converter := convertCallbackFunction.
Definition export_DOMTimeStamp : Converter := export_unsigned_long_long.

(** *** ByteString *)

Definition is_leading_surrogate (c : Z) : bool :=
  (0xD800 <=? c) && (c <=? 0xDBFF).

Definition is_trailing_surrogate (c : Z) : bool :=
  (0xDC00 <=? c) && (c <=? 0xDFFF).

(** The String iterator: the string cut into its code points, each one a
    string of one code unit or of a surrogate pair. *)
Fixpoint String_iterator (s : jsstring) : list jsstring :=
  match s with
  | [] => []
  | c :: rest =>
      match rest with
      | d :: rest' =>
          if is_leading_surrogate c && is_trailing_surrogate d
          then [c; d] :: String_iterator rest'
          else [c] :: String_iterator rest
      | [] => [[c]]
      end
  end.

(** [String.prototype.codePointAt]; out of range the result is
    [undefined], which compares like NaN. *)
Definition codePointAt (S : jsstring) (pos : Z) : f64 :=
  let size := Z.of_nat (List.length S) in
  if (0 <=? pos) && (pos <? size) then
    let first := nth (Z.to_nat pos) S 0 in
    if negb (is_leading_surrogate first) || (pos + 1 =? size)
    then of_int first
    else
      let second := nth (Z.to_nat (pos + 1)) S 0 in
      if negb (is_trailing_surrogate second) then of_int first
      else of_int ((first - 0xD800) * 0x400 + (second - 0xDC00) + 0x10000)
  else NaN.

(** The [for ... of] loop of [export_ByteString] over the code points. *)
Fixpoint ByteString_loop (cs : list jsstring) (o : opts.t)
  : Completion unit :=
  match cs with
  | [] => Normal tt
  | c :: cs' =>
      let code_point := codePointAt c 0 in
      if F64.gt code_point (of_int 0xFF) then
        Throw (makeException TypeErrorCtor "is not a valid ByteString" o)
      else ByteString_loop cs' o
  end.

Definition export_ByteString : Converter := fun V o =>
  x <- export_DOMString V o;;
  _ <- ByteString_loop (String_iterator x) o;;
  Normal (VString x).

(** *** Typed arrays *)

(** [func.name] of a typed array constructor. *)
Definition TypedArray_name (func : TypedArrayName) : string :=
  match func with
  | Int8Array => "Int8Array"
  | Uint8Array => "Uint8Array"
  | Uint8ClampedArray => "Uint8ClampedArray"
  | Int16Array => "Int16Array"
  | Uint16Array => "Uint16Array"
  | Int32Array => "Int32Array"
  | Uint32Array => "Uint32Array"
  | BigInt64Array => "BigInt64Array"
  | BigUint64Array => "BigUint64Array"
  | Float32Array => "Float32Array"
  | Float64Array => "Float64Array"
  end.

(** [/^[AEIOU]/.test(name) ? "an" : "a"] *)
Definition article (name : string) : string :=
  match name with
  | String c _ =>
      if existsb (Ascii.eqb c) ["A"; "E"; "I"; "O"; "U"]%char
      then "an" else "a"
  | EmptyString => "a"
  end.

(** [get %TypedArray%.prototype[Symbol.toStringTag]], by its this value:
    the constructor name of a typed array, [undefined] ([None]) for
    anything else. *)
Definition typedArrayNameGetter (this : JsValue) : option string :=
  match this with
  | VObject (TypedArrayObj _ name _) => Some (TypedArray_name name)
  | _ => None
  end.

(** [get %TypedArray%.prototype.buffer], by its this value. *)
Definition typedArrayBufferGetter (this : JsValue) : Completion JsValue :=
  match this with
  | VObject (TypedArrayObj _ _ buffer) => Normal (VObject buffer)
  | _ => Throw EngineTypeError
  end.

(** [specializeTypedArrayConverter].  The name is read with
    [typedArrayNameGetter.call(V)]; the buffer with the plain call
    [typedArrayBufferGetter(V)], in which the accessor runs with an
    undefined this value. *)
Definition specializeTypedArrayConverter (func : TypedArrayName)
  : Converter :=
  let name := TypedArray_name func in
  let article := article name in
  fun V o =>
    if negb (isView V)
       || negb (match typedArrayNameGetter V with
                | Some n => String.eqb n name
                | None => false
                end)
    then
      Throw (makeException TypeErrorCtor
               ("is not " ++ article ++ " " ++ name ++ " object") o)
    else
      buffer <- typedArrayBufferGetter VUndefined;;
      if negb (opts.allowShared o) && isSharedArrayBuffer buffer then
        Throw (makeException TypeErrorCtor
                 "is a view on a SharedArrayBuffer, which is not allowed" o)
      else if isArrayBufferDetached buffer then
        Throw (makeException TypeErrorCtor
                 "is a view on a detached ArrayBuffer" o)
      else Normal V.

End Conversions.

(** The numeric family of the export table. *)
Inductive NumericType : Type :=
| byte | octet | short | unsigned_short | long | unsigned_long
| long_long | unsigned_long_long
| double | unrestricted_double | float | unrestricted_float.

Definition numeric_converter (host : Host) (t : NumericType) : Converter :=
  match t with
  | byte => export_byte host
  | octet => export_octet host
  | short => export_short host
  | unsigned_short => export_unsigned_short host
  | long => export_long host
  | unsigned_long => export_unsigned_long host
  | long_long => export_long_long host
  | unsigned_long_long => export_unsigned_long_long host
  | double => export_double host
  | unrestricted_double => export_unrestricted_double host
  | float => export_float host
  | unrestricted_float => export_unrestricted_float host
  end.

(** A host in which every delegated conversion has a fixed outcome; used to
    run the converters on concrete inputs. *)
Definition plain_host : Host :=
  {| StringToNumber := fun _ => NaN;
     ObjectToNumber := fun _ => Normal NaN;
     NumberToString := fun _ => "0"%string;
     ObjectToString := fun _ => Normal (jsstring_of "[object Object]");
     SymbolDescriptiveString := fun _ => jsstring_of "Symbol()";
     Call := fun _ _ _ => Normal VUndefined;
     Uint8ArrayFrom := fun _ => Normal tt |}.

(** Apply a converter to its own result. *)
Definition twice (c : Converter) (V : JsValue) (o : opts.t)
  : Completion JsValue :=
  v <- c V o;; c v o.

(** [{ clamp: true }] and [{ enforceRange: true }]. *)
Definition clamp_opts : opts.t :=
  {| opts.enforceRange := false; opts.clamp := true;
     opts.treatNullAsEmptyString := false; opts.allowShared := false;
     opts.context := EmptyString; opts.globals := None |}.

Definition enforceRange_opts : opts.t :=
  {| opts.enforceRange := true; opts.clamp := false;
     opts.treatNullAsEmptyString := false; opts.allowShared := false;
     opts.context := EmptyString; opts.globals := None |}.

Definition allowShared_opts : opts.t :=
  {| opts.enforceRange := false; opts.clamp := false;
     opts.treatNullAsEmptyString := false; opts.allowShared := true;
     opts.context := EmptyString; opts.globals := None |}.

(** The 64-bit members of the numeric family. *)
Definition is_long_long (t : NumericType) : bool :=
  match t with
  | long_long | unsigned_long_long => true
  | _ => false
  end.

(** The range [[lowerBound, upperBound]] of each integer converter, as
    integers; the floating-point converters have none. *)
Definition integer_range (t : NumericType) : option (Z * Z) :=
  match t with
  | byte => Some (- 2 ^ 7, 2 ^ 7 - 1)
  | octet => Some (0, 2 ^ 8 - 1)
  | short => Some (- 2 ^ 15, 2 ^ 15 - 1)
  | unsigned_short => Some (0, 2 ^ 16 - 1)
  | long => Some (- 2 ^ 31, 2 ^ 31 - 1)
  | unsigned_long => Some (0, 2 ^ 32 - 1)
  | long_long => Some (MIN_SAFE_INTEGER, MAX_SAFE_INTEGER)
  | unsigned_long_long => Some (0, MAX_SAFE_INTEGER)
  | _ => None
  end.

(** The integer nearest to [k * 2^-1074], the even one of the two when
    [k * 2^-1074] lies halfway between them. *)
Definition nearest_even (k : Z) : Z :=
  let q := k / scale in
  let r := k mod scale in
  if 2 * r <? scale then q
  else if scale <? 2 * r then q + 1
  else if Z.even q then q else q + 1.

(** The text of the range error, once the bounds are printed. *)
Definition range_text (lo hi : Z) : string :=
  ("is outside the accepted range of " ++ decimal lo ++ " to "
     ++ decimal hi ++ ", inclusive")%string.

(** ** Arithmetic of the Number model *)

Lemma scale_pos : 0 < scale.
Proof. unfold scale. apply Z.pow_pos_nonneg; lia. Qed.

Lemma scale_neq_0 : scale <> 0.
Proof. pose proof scale_pos. lia. Qed.

Opaque scale.

Lemma trunc_of_int (z : Z) : F64.trunc (of_int z) = of_int z.
Proof.
  unfold F64.trunc, of_int.
  rewrite Z.quot_mul by apply scale_neq_0.
  destruct (z =? 0) eqn:Hz; [|reflexivity].
  apply Z.eqb_eq in Hz. subst z. reflexivity.
Qed.

Lemma strict_eq_of_int_0 (z : Z) :
  F64.strict_eq (of_int z) (Fin 0) = (z =? 0).
Proof.
  unfold F64.strict_eq, of_int, val.
  pose proof scale_pos.
  destruct (z =? 0) eqn:Hz.
  - apply Z.eqb_eq in Hz. subst z. reflexivity.
  - apply Z.eqb_neq in Hz. apply Z.eqb_neq. nia.
Qed.

Lemma censorNegativeZero_of_int (z : Z) :
  censorNegativeZero (of_int z) = of_int z.
Proof.
  unfold censorNegativeZero. rewrite strict_eq_of_int_0.
  destruct (z =? 0) eqn:Hz; [|reflexivity].
  apply Z.eqb_eq in Hz. subst z. reflexivity.
Qed.

Lemma integerPart_of_int (z : Z) : integerPart (of_int z) = of_int z.
Proof.
  unfold integerPart. rewrite trunc_of_int. apply censorNegativeZero_of_int.
Qed.

Lemma ge_big_of_int (z b : Z) : ge_big (of_int z) b = (b <=? z).
Proof.
  unfold ge_big, of_int, val. pose proof scale_pos.
  destruct (b <=? z) eqn:Hb.
  - apply Z.leb_le in Hb. apply Z.leb_le. nia.
  - apply Z.leb_gt in Hb. apply Z.leb_gt. nia.
Qed.

Lemma le_big_of_int (z b : Z) : le_big (of_int z) b = (z <=? b).
Proof.
  unfold le_big, of_int, val. pose proof scale_pos.
  destruct (z <=? b) eqn:Hb.
  - apply Z.leb_le in Hb. apply Z.leb_le. nia.
  - apply Z.leb_gt in Hb. apply Z.leb_gt. nia.
Qed.

(** The integer part of a finite Number is the Number of its quotient by
    the scale, truncated towards zero. *)
Lemma integerPart_Fin (k : Z) :
  integerPart (Fin k) = of_int (Z.quot k scale).
Proof.
  unfold integerPart, F64.trunc.
  destruct ((Z.quot k scale =? 0) && (k <? 0)) eqn:Hq.
  - apply andb_true_iff in Hq. destruct Hq as [Hq _].
    apply Z.eqb_eq in Hq. rewrite Hq. reflexivity.
  - apply (censorNegativeZero_of_int (Z.quot k scale)).
Qed.

Lemma toBigInt_of_int (z : Z) : toBigInt (of_int z) = Some z.
Proof.
  unfold toBigInt, of_int.
  rewrite Z.mod_mul by apply scale_neq_0.
  rewrite Z.div_mul by apply scale_neq_0.
  reflexivity.
Qed.

Lemma strict_eq_Fin_0 (k : Z) : F64.strict_eq (Fin k) (Fin 0) = (k =? 0).
Proof. reflexivity. Qed.

Lemma censorNegativeZero_Fin_nonzero (k : Z) :
  k <> 0 -> censorNegativeZero (Fin k) = Fin k.
Proof.
  intros Hk. unfold censorNegativeZero. rewrite strict_eq_Fin_0.
  apply Z.eqb_neq in Hk. rewrite Hk. reflexivity.
Qed.

Lemma quot_of_int (z : Z) : Z.quot (z * scale) scale = z.
Proof. apply Z.quot_mul, scale_neq_0. Qed.

(** [BigInt.asIntN(64, z)] and [BigInt.asUintN(64, z)] stay within the
    64-bit window and leave a value of the window unchanged. *)
Lemma asIntN_64_range (z : Z) : - 2 ^ 63 <= asIntN 64 z < 2 ^ 63.
Proof.
  unfold asIntN.
  pose proof (Z.mod_pos_bound z (2 ^ 64) ltac:(lia)) as Hm.
  change (64 - 1) with 63.
  destruct (2 ^ 63 <=? z mod 2 ^ 64) eqn:Hc;
    [apply Z.leb_le in Hc | apply Z.leb_gt in Hc]; lia.
Qed.

Lemma asUintN_64_range (z : Z) : 0 <= asUintN 64 z < 2 ^ 64.
Proof. unfold asUintN. apply Z.mod_pos_bound. lia. Qed.

Lemma asIntN_64_id (z : Z) : - 2 ^ 63 <= z < 2 ^ 63 -> asIntN 64 z = z.
Proof.
  intros Hz. unfold asIntN. change (64 - 1) with 63.
  destruct (Z_lt_le_dec z 0) as [Hneg | Hpos].
  - assert (Hm : z mod 2 ^ 64 = z + 2 ^ 64).
    { symmetry. apply (Z.mod_unique z (2 ^ 64) (-1) (z + 2 ^ 64)); lia. }
    rewrite Hm.
    destruct (2 ^ 63 <=? z + 2 ^ 64) eqn:Hc;
      [apply Z.leb_le in Hc | apply Z.leb_gt in Hc]; lia.
  - rewrite Z.mod_small by lia.
    destruct (2 ^ 63 <=? z) eqn:Hc;
      [apply Z.leb_le in Hc | apply Z.leb_gt in Hc]; lia.
Qed.

Lemma asUintN_64_id (z : Z) : 0 <= z < 2 ^ 64 -> asUintN 64 z = z.
Proof. intros Hz. unfold asUintN. apply Z.mod_small. exact Hz. Qed.

(** The literals the statements below use are binary64 values: 255.9 and
    -128.9 are the nearest Numbers, with significands of 53 bits; 127.5 and
    126.5 are exact. *)
Lemma literals_are_binary64 :
  of_ratio 2559 10 = dyadic 9003680817532109 (-45)
  /\ of_ratio (-1289) 10 = dyadic (-4535265562250445) (-45)
  /\ of_ratio 1275 10 = dyadic 255 (-1)
  /\ of_ratio 1265 10 = dyadic 253 (-1)
  /\ representable (of_ratio 2559 10) = true
  /\ representable (of_ratio (-1289) 10) = true.
Proof. repeat split; vm_compute; reflexivity. Qed.

(** ** Unresolvable identifiers *)

Lemma Positive_unresolvable : resolvable "Positive" = false.
Proof. reflexivity. Qed.

Lemma Negative_unresolvable : resolvable "Negative" = false.
Proof. reflexivity. Qed.

Lemma charCodeAt_unresolvable : resolvable "charCodeAt" = false.
Proof. reflexivity. Qed.

(** [sign] never returns: whichever branch is taken evaluates an
    unresolvable identifier. *)
Lemma sign_throws (x : f64) :
  sign x = Throw (EngineReferenceError
                    (if F64.lt x (Fin 0) then "Negative" else "Positive")).
Proof. unfold sign. destruct (F64.lt x (Fin 0)); reflexivity. Qed.

(** [modulo] evaluates [sign(y)] first, so with a divisor that is not
    negative it throws on [Positive]. *)
Lemma modulo_throws (x y : f64) :
  F64.lt y (Fin 0) = false ->
  modulo x y = Throw (EngineReferenceError "Positive").
Proof.
  intros Hy. unfold modulo. rewrite (sign_throws y), Hy. reflexivity.
Qed.

(** [clamp] with a BigInt bound throws in [Math.max], whatever [x] is. *)
Lemma clamp_big_lowerBound_throws (x : f64) (lb : Z) (upperBound : Numeric) :
  clamp (Num x) (Big lb) upperBound = Throw EngineTypeError.
Proof. reflexivity. Qed.

(** [x - twoToTheBitLength], a Number minus a BigInt, throws. *)
Lemma Numeric_sub_mixed_throws (x : f64) (z : Z) :
  Numeric_sub (Num x) (Big z) = Throw EngineTypeError.
Proof. reflexivity. Qed.

(** ** The integer converters *)

(** The bounds of the 8-, 16- and 32-bit converters are BigInts: the
    unsigned range [[0, 2^n - 1]] or the signed range
    [[-2^(n-1), 2^(n-1) - 1]]. *)
Lemma integer_bounds_narrow (bitLength : Z) (unsigned : bool) :
  In bitLength [8; 16; 32] ->
  integer_bounds bitLength unsigned
  = (Big (if unsigned then 0 else - 2 ^ (bitLength - 1)),
     Big (if unsigned then 2 ^ bitLength - 1 else 2 ^ (bitLength - 1) - 1)).
Proof.
  intros [<- | [<- | [<- | []]]]; destruct unsigned; reflexivity.
Qed.

Section IntegerConverters.

Variable host : Host.

(** Under [clamp], the 8-, 16- and 32-bit converters throw the engine's
    TypeError for every input that coerces to a Number other than NaN:
    their bounds are BigInts. *)
Lemma createIntegerConversion_clamp_throws
  (bitLength : Z) (unsigned : bool) (V : JsValue) (o : opts.t) (x : f64) :
  In bitLength [8; 16; 32] ->
  opts.enforceRange o = false ->
  opts.clamp o = true ->
  toNumber host V o = Normal x ->
  F64.isNaN x = false ->
  createIntegerConversion host bitLength unsigned V o
  = Throw EngineTypeError.
Proof.
  intros Hb He Hc Hx Hn.
  assert (Hcz : F64.isNaN (censorNegativeZero x) = false).
  { unfold censorNegativeZero.
    destruct (F64.strict_eq x (Fin 0)); [reflexivity | exact Hn]. }
  unfold createIntegerConversion.
  rewrite (integer_bounds_narrow bitLength unsigned Hb).
  cbv beta iota zeta. rewrite Hx. cbn [bind]. rewrite He, Hcz, Hc.
  reflexivity.
Qed.

(** Under default options an integer within the bounds comes back
    unchanged from the 8-, 16- and 32-bit converters. *)
Lemma createIntegerConversion_in_range
  (bitLength : Z) (unsigned : bool) (z : Z) :
  In bitLength [8; 16; 32] ->
  (if unsigned then 0 else - 2 ^ (bitLength - 1)) <= z
  <= (if unsigned then 2 ^ bitLength - 1 else 2 ^ (bitLength - 1) - 1) ->
  createIntegerConversion host bitLength unsigned
    (VNumber (of_int z)) opts.empty
  = Normal (VNumber (of_int z)).
Proof.
  intros Hb Hz.
  unfold createIntegerConversion.
  rewrite (integer_bounds_narrow bitLength unsigned Hb).
  cbv beta iota zeta.
  change (toNumber host (VNumber (of_int z)) opts.empty)
    with (Normal (of_int z)).
  cbn [bind]. rewrite censorNegativeZero_of_int.
  cbn [opts.enforceRange opts.clamp opts.empty].
  rewrite andb_false_r.
  change (F64.isFinite (of_int z)) with true. cbn [negb orb].
  rewrite strict_eq_of_int_0.
  destruct (z =? 0) eqn:Hz0.
  - apply Z.eqb_eq in Hz0. subst z. reflexivity.
  - rewrite integerPart_of_int.
    cbn [ge_numeric le_numeric].
    rewrite ge_big_of_int, le_big_of_int.
    destruct Hz as [Hl Hu].
    apply Z.leb_le in Hl. apply Z.leb_le in Hu.
    rewrite Hl, Hu. reflexivity.
Qed.

(** Under default options, outside the bounds, the same converters reach
    [modulo] and throw the ReferenceError of [sign]. *)
Lemma createIntegerConversion_out_of_range_throws
  (bitLength : Z) (unsigned : bool) (k : Z) (o : opts.t) :
  In bitLength [8; 16; 32] ->
  opts.enforceRange o = false ->
  opts.clamp o = false ->
  opts.globals o = None ->
  k <> 0 ->
  Z.quot k scale < (if unsigned then 0 else - 2 ^ (bitLength - 1))
  \/ (if unsigned then 2 ^ bitLength - 1 else 2 ^ (bitLength - 1) - 1)
     < Z.quot k scale ->
  createIntegerConversion host bitLength unsigned (VNumber (Fin k)) o
  = Throw (EngineReferenceError "Positive").
Proof.
  intros Hb He Hc Hg Hk Hout.
  unfold createIntegerConversion.
  rewrite (integer_bounds_narrow bitLength unsigned Hb).
  cbv beta iota zeta.
  unfold toNumber. rewrite Hg. cbn [ToNumber bind].
  rewrite (censorNegativeZero_Fin_nonzero k Hk).
  rewrite He, Hc, andb_false_r.
  cbn [F64.isFinite negb orb].
  rewrite (strict_eq_Fin_0 k).
  apply Z.eqb_neq in Hk. rewrite Hk.
  rewrite integerPart_Fin.
  cbn [ge_numeric le_numeric].
  rewrite ge_big_of_int, le_big_of_int.
  replace (_ && _) with false.
  - rewrite modulo_throws; [reflexivity|].
    destruct Hb as [<- | [<- | [<- | []]]]; vm_compute; reflexivity.
  - symmetry. apply andb_false_iff.
    destruct Hout as [H | H]; [left | right]; apply Z.leb_gt; exact H.
Qed.

(** Under the default policy the 64-bit converters turn a finite nonzero
    Number into the BigInt of its integer part, wrapped to 64 bits. *)
Lemma createLongLongConversion_default
  (unsigned : bool) (k : Z) (o : opts.t) :
  opts.enforceRange o = false ->
  opts.clamp o = false ->
  opts.globals o = None ->
  k <> 0 ->
  createLongLongConversion host 64 unsigned (VNumber (Fin k)) o
  = Normal (VBigInt ((if unsigned then asUintN else asIntN) 64
                       (Z.quot k scale))).
Proof.
  intros He Hc Hg Hk.
  unfold createLongLongConversion. cbv beta iota zeta.
  unfold toNumber. rewrite Hg. cbn [ToNumber bind].
  rewrite (censorNegativeZero_Fin_nonzero k Hk).
  rewrite He, Hc, andb_false_r.
  cbn [F64.isFinite negb orb].
  rewrite (strict_eq_Fin_0 k).
  apply Z.eqb_neq in Hk. rewrite Hk.
  rewrite integerPart_Fin, toBigInt_of_int.
  reflexivity.
Qed.

(** The 64-bit converters reject every BigInt in [toNumber]. *)
Lemma createLongLongConversion_rejects_BigInt
  (unsigned : bool) (z : Z) (o : opts.t) :
  opts.globals o = None ->
  createLongLongConversion host 64 unsigned (VBigInt z) o
  = Throw EngineTypeError.
Proof.
  intros Hg. unfold createLongLongConversion. cbv beta iota zeta.
  unfold toNumber. rewrite Hg. reflexivity.
Qed.

End IntegerConverters.

(** [integer_range] is what the converters compute: the BigInt bounds of
    [createIntegerConversion] and the safe-integer bounds of
    [createLongLongConversion]. *)
Lemma integer_range_narrow (bitLength : Z) (unsigned : bool) :
  In bitLength [8; 16; 32] ->
  exists t lo hi,
    integer_range t = Some (lo, hi)
    /\ integer_bounds bitLength unsigned = (Big lo, Big hi)
    /\ forall host,
         numeric_converter host t
         = createIntegerConversion host bitLength unsigned.
Proof.
  intros [<- | [<- | [<- | []]]]; destruct unsigned.
  - exists octet, 0, (2 ^ 8 - 1). repeat split.
  - exists byte, (- 2 ^ 7), (2 ^ 7 - 1). repeat split.
  - exists unsigned_short, 0, (2 ^ 16 - 1). repeat split.
  - exists short, (- 2 ^ 15), (2 ^ 15 - 1). repeat split.
  - exists unsigned_long, 0, (2 ^ 32 - 1). repeat split.
  - exists long, (- 2 ^ 31), (2 ^ 31 - 1). repeat split.
Qed.

(** With the Number bounds of [createLongLongConversion] the same [clamp]
    call saturates, and [evenRound] rounds halves to the even integer. *)
Lemma unsigned_long_long_clamp (host : Host) :
  export_unsigned_long_long host (VNumber (of_int (-5))) clamp_opts
  = Normal (VNumber (of_int 0))
  /\ export_unsigned_long_long host (VNumber (of_bigint (2 ^ 80))) clamp_opts
     = Normal (VNumber (of_int MAX_SAFE_INTEGER))
  /\ export_unsigned_long_long host (VNumber (of_ratio 1275 10)) clamp_opts
     = Normal (VNumber (of_int 128))
  /\ export_unsigned_long_long host (VNumber (of_ratio 1265 10)) clamp_opts
     = Normal (VNumber (of_int 126)).
Proof. repeat split; vm_compute; reflexivity. Qed.

(** C1 (as the code behaves): the 8-bit unsigned converter with
    [clamp=true] does not return 255, 128 and 126 for the inputs 300, 127.5
    and 126.5: each call throws the TypeError that [Math.max] raises on the
    BigInt bound [0n]. *)
Theorem octet_clamp_throws_TypeError (host : Host) :
  export_octet host (VNumber (of_int 300)) clamp_opts = Throw EngineTypeError
  /\ export_octet host (VNumber (of_ratio 1275 10)) clamp_opts
     = Throw EngineTypeError
  /\ export_octet host (VNumber (of_ratio 1265 10)) clamp_opts
     = Throw EngineTypeError.
Proof. repeat split; vm_compute; reflexivity. Qed.

(** C8 (as the code behaves): under default options the 8-bit unsigned
    converter returns 255 for 255.9, but for 256 and for -1 it throws a
    ReferenceError from [sign] instead of returning 0 and 255. *)
Theorem octet_default_wraparound (host : Host) :
  export_octet host (VNumber (of_int 256)) opts.empty
  = Throw (EngineReferenceError "Positive")
  /\ export_octet host (VNumber (of_int (-1))) opts.empty
     = Throw (EngineReferenceError "Positive")
  /\ export_octet host (VNumber (of_ratio 2559 10)) opts.empty
     = Normal (VNumber (of_int 255)).
Proof. repeat split; vm_compute; reflexivity. Qed.

(** C7 (as the code behaves): the byte converter under default options
    does not map 200 to -56: the call throws a ReferenceError from
    [sign]. *)
Theorem byte_200_throws_ReferenceError (host : Host) :
  export_byte host (VNumber (of_int 200)) opts.empty
  = Throw (EngineReferenceError "Positive").
Proof. vm_compute. reflexivity. Qed.

(** C9: with [enforceRange=true] (and no alternate realm) the 8-bit signed
    converter fails with the TypeError of [makeException] for 200, for NaN
    and for Infinity, and returns -128 for -128.9. *)
Theorem byte_enforceRange (host : Host) (o : opts.t) :
  opts.enforceRange o = true ->
  opts.globals o = None ->
  export_byte host (VNumber (of_int 200)) o
  = Throw (ErrorObject TypeErrorCtor
             (context_label o ++
              " is outside the accepted range of -128 to 127, inclusive."))
  /\ export_byte host (VNumber NaN) o
     = Throw (ErrorObject TypeErrorCtor
                (context_label o ++ " is not a finite number."))
  /\ export_byte host (VNumber PosInf) o
     = Throw (ErrorObject TypeErrorCtor
                (context_label o ++ " is not a finite number."))
  /\ export_byte host (VNumber (of_ratio (-1289) 10)) o
     = Normal (VNumber (of_int (-128))).
Proof.
  intros He Hg. destruct o as [er cl tn al ctx g].
  simpl in He, Hg. subst er g.
  repeat split; vm_compute; reflexivity.
Qed.

Lemma byte_enforceRange_witness :
  opts.enforceRange enforceRange_opts = true
  /\ opts.globals enforceRange_opts = None
  /\ export_byte plain_host (VNumber (of_int 200)) enforceRange_opts
     = Throw (ErrorObject TypeErrorCtor
                "Value is outside the accepted range of -128 to 127, inclusive.")
  /\ export_byte plain_host (VNumber (of_ratio (-1289) 10)) enforceRange_opts
     = Normal (VNumber (of_int (-128))).
Proof.
  split; [reflexivity | split; [reflexivity |]].
  destruct (byte_enforceRange plain_host enforceRange_opts eq_refl eq_refl)
    as [H200 [_ [_ Hm]]].
  split; [exact H200 | exact Hm].
Defined.

(** C10: without an alternate realm, every converter of the numeric family
    throws the engine's TypeError on a symbol, and it is the numeric
    coercion [toNumber] that throws it. *)
Theorem numeric_converters_reject_symbols
  (host : Host) (t : NumericType) (id : nat) (o : opts.t) :
  opts.globals o = None ->
  toNumber host (VSymbol id) o = Throw EngineTypeError
  /\ numeric_converter host t (VSymbol id) o = Throw EngineTypeError.
Proof.
  intros Hg.
  assert (Hn : toNumber host (VSymbol id) o = Throw EngineTypeError).
  { unfold toNumber. rewrite Hg. reflexivity. }
  split; [exact Hn|].
  destruct t; cbn [numeric_converter];
    unfold export_byte, export_octet, export_short, export_unsigned_short,
      export_long, export_unsigned_long, export_long_long,
      export_unsigned_long_long, export_double, export_unrestricted_double,
      export_float, export_unrestricted_float,
      createIntegerConversion, createLongLongConversion;
    try (rewrite integer_bounds_narrow by (simpl; tauto));
    cbv beta iota zeta; rewrite Hn; reflexivity.
Qed.

Lemma numeric_converters_reject_symbols_witness :
  opts.globals opts.empty = None
  /\ numeric_converter plain_host unsigned_long_long (VSymbol 0) opts.empty
     = Throw EngineTypeError.
Proof.
  split; [reflexivity|].
  exact (proj2 (numeric_converters_reject_symbols
                  plain_host unsigned_long_long 0%nat opts.empty eq_refl)).
Defined.

(** C6 (amended): under default options every 8-, 16- and 32-bit integer
    converter returns an integer of its range unchanged, and so does a
    second application; the 64-bit converters do so at 0 only: a nonzero
    integer of their range comes back as the BigInt of the same value, and
    a second application throws the TypeError of the numeric coercion. *)
Theorem integer_converters_on_in_range_integers
  (host : Host) (t : NumericType) (lo hi z : Z) :
  integer_range t = Some (lo, hi) ->
  lo <= z <= hi ->
  let c := numeric_converter host t in
  let x := VNumber (of_int z) in
  if is_long_long t && negb (z =? 0)
  then c x opts.empty = Normal (VBigInt z)
       /\ twice c x opts.empty = Throw EngineTypeError
  else c x opts.empty = Normal x
       /\ twice c x opts.empty = Normal x.
Proof.
  intros Hr Hz.
  assert (Hnarrow : forall (bitLength : Z) (unsigned : bool),
             In bitLength [8; 16; 32] ->
             (if unsigned then 0 else - 2 ^ (bitLength - 1)) <= z
             <= (if unsigned then 2 ^ bitLength - 1
                 else 2 ^ (bitLength - 1) - 1) ->
             let c := createIntegerConversion host bitLength unsigned in
             c (VNumber (of_int z)) opts.empty = Normal (VNumber (of_int z))
             /\ twice c (VNumber (of_int z)) opts.empty
                = Normal (VNumber (of_int z))).
  { intros b u Hb Hin c.
    pose proof (createIntegerConversion_in_range host b u z Hb Hin) as Hc.
    split; [exact Hc|].
    unfold twice, c. rewrite Hc. cbn [bind]. exact Hc. }
  assert (Hwide : forall unsigned : bool,
             - 2 ^ 63 <= z < 2 ^ 63 -> 0 <= (if unsigned then z else 0) ->
             let c := createLongLongConversion host 64 unsigned in
             if negb (z =? 0)
             then c (VNumber (of_int z)) opts.empty = Normal (VBigInt z)
                  /\ twice c (VNumber (of_int z)) opts.empty
                     = Throw EngineTypeError
             else c (VNumber (of_int z)) opts.empty
                  = Normal (VNumber (of_int z))
                  /\ twice c (VNumber (of_int z)) opts.empty
                     = Normal (VNumber (of_int z))).
  { intros u Hw Hu c.
    destruct (z =? 0) eqn:Hz0; cbn [negb].
    - apply Z.eqb_eq in Hz0. subst z.
      split; vm_compute; destruct u; reflexivity.
    - apply Z.eqb_neq in Hz0.
      assert (Hk : z * scale <> 0).
      { pose proof scale_pos. nia. }
      pose proof (createLongLongConversion_default host u (z * scale)
                    opts.empty eq_refl eq_refl eq_refl Hk) as Hc.
      rewrite quot_of_int in Hc.
      assert (Hwrap : (if u then asUintN else asIntN) 64 z = z).
      { destruct u; [apply asUintN_64_id | apply asIntN_64_id]; lia. }
      rewrite Hwrap in Hc.
      split; [exact Hc|].
      unfold twice, c. unfold of_int. rewrite Hc. cbn [bind].
      apply createLongLongConversion_rejects_BigInt. reflexivity. }
  destruct t; cbn [integer_range] in Hr; try discriminate Hr;
    injection Hr as <- <-; cbn [is_long_long andb numeric_converter].
  - apply (Hnarrow 8 false); [simpl; tauto | exact Hz].
  - apply (Hnarrow 8 true); [simpl; tauto | exact Hz].
  - apply (Hnarrow 16 false); [simpl; tauto | exact Hz].
  - apply (Hnarrow 16 true); [simpl; tauto | exact Hz].
  - apply (Hnarrow 32 false); [simpl; tauto | exact Hz].
  - apply (Hnarrow 32 true); [simpl; tauto | exact Hz].
  - apply (Hwide false); unfold MIN_SAFE_INTEGER, MAX_SAFE_INTEGER in Hz; lia.
  - apply (Hwide true); unfold MAX_SAFE_INTEGER in Hz; lia.
Qed.

Lemma integer_converters_on_in_range_integers_witness :
  integer_range short = Some (- 2 ^ 15, 2 ^ 15 - 1)
  /\ - 2 ^ 15 <= -3 <= 2 ^ 15 - 1
  /\ export_short plain_host (VNumber (of_int (-3))) opts.empty
     = Normal (VNumber (of_int (-3)))
  /\ twice (export_short plain_host) (VNumber (of_int (-3))) opts.empty
     = Normal (VNumber (of_int (-3))).
Proof.
  split; [reflexivity | split; [lia |]].
  exact (integer_converters_on_in_range_integers
           plain_host short (- 2 ^ 15) (2 ^ 15 - 1) (-3) eq_refl
           ltac:(lia)).
Defined.

(** C6 (as stated) fails for the 64-bit converters: [long long] maps the
    in-range integer 5 to the BigInt [5n], which is not the Number 5. *)
Lemma long_long_not_idempotent :
  ~ (export_long_long plain_host (VNumber (of_int 5)) opts.empty
     = Normal (VNumber (of_int 5))
     /\ twice (export_long_long plain_host) (VNumber (of_int 5)) opts.empty
        = Normal (VNumber (of_int 5))).
Proof. intros [H _]. vm_compute in H. discriminate H. Qed.

(** What the second application does there. *)
Lemma long_long_twice_5 :
  export_long_long plain_host (VNumber (of_int 5)) opts.empty
  = Normal (VBigInt 5)
  /\ twice (export_long_long plain_host) (VNumber (of_int 5)) opts.empty
     = Throw EngineTypeError.
Proof. split; vm_compute; reflexivity. Qed.

(** C5 (amended): the 64-bit converters reject a BigInt input with the
    TypeError of the numeric coercion; under the default policy they map a
    finite nonzero Number [k * 2^-1074] to a BigInt, its integer part
    [k quot 2^1074] wrapped by [BigInt.asIntN(64, _)] for [long long] and by
    [BigInt.asUintN(64, _)] for [unsigned long long]. *)
Theorem long_long_converters_default_policy
  (host : Host) (z k : Z) (o : opts.t) :
  opts.enforceRange o = false ->
  opts.clamp o = false ->
  opts.globals o = None ->
  k <> 0 ->
  export_long_long host (VBigInt z) o = Throw EngineTypeError
  /\ export_unsigned_long_long host (VBigInt z) o = Throw EngineTypeError
  /\ export_long_long host (VNumber (Fin k)) o
     = Normal (VBigInt (asIntN 64 (Z.quot k scale)))
  /\ export_unsigned_long_long host (VNumber (Fin k)) o
     = Normal (VBigInt (asUintN 64 (Z.quot k scale))).
Proof.
  intros He Hc Hg Hk. unfold export_long_long, export_unsigned_long_long.
  repeat split.
  - apply createLongLongConversion_rejects_BigInt, Hg.
  - apply createLongLongConversion_rejects_BigInt, Hg.
  - apply (createLongLongConversion_default host false k o He Hc Hg Hk).
  - apply (createLongLongConversion_default host true k o He Hc Hg Hk).
Qed.

Lemma long_long_converters_default_policy_witness :
  opts.enforceRange opts.empty = false
  /\ opts.clamp opts.empty = false
  /\ opts.globals opts.empty = None
  /\ (2 ^ 64 + 4096) * scale <> 0
  /\ export_long_long plain_host (VBigInt 5) opts.empty
     = Throw EngineTypeError
  /\ export_unsigned_long_long plain_host
       (VNumber (of_int (2 ^ 64 + 4096))) opts.empty
     = Normal (VBigInt 4096).
Proof.
  assert (Hk : (2 ^ 64 + 4096) * scale <> 0).
  { vm_compute. discriminate. }
  split; [reflexivity|]. split; [reflexivity|].
  split; [reflexivity|]. split; [exact Hk|].
  destruct (long_long_converters_default_policy
              plain_host 5 ((2 ^ 64 + 4096) * scale) opts.empty
              eq_refl eq_refl eq_refl Hk) as [Hbig [_ [_ Hu]]].
  split; [exact Hbig|].
  rewrite quot_of_int in Hu. exact Hu.
Defined.

(** C5 (as stated) fails: [long long] does not accept the BigInt [5n]. *)
Lemma long_long_rejects_BigInt_input :
  ~ (exists r : Z,
        export_long_long plain_host (VBigInt 5) opts.empty
        = Normal (VBigInt r)).
Proof. intros [r H]. vm_compute in H. discriminate H. Qed.

(** ** Strings *)

(** On every non-empty string the first iteration of the loop of
    [export_USVString] throws: [charCodeAt] is unresolvable. *)
Lemma export_USVString_nonempty_throws
  (host : Host) (c : Z) (s : jsstring) (o : opts.t) :
  opts.globals o = None ->
  export_USVString host (VString (c :: s)) o
  = Throw (EngineReferenceError "charCodeAt").
Proof.
  intros Hg. unfold export_USVString, export_DOMString.
  rewrite Hg. cbn [String_ bind]. reflexivity.
Qed.

Lemma export_USVString_empty (host : Host) (o : opts.t) :
  opts.globals o = None ->
  export_USVString host (VString []) o = Normal (VString []).
Proof.
  intros Hg. unfold export_USVString, export_DOMString.
  rewrite Hg. reflexivity.
Qed.

(** C3 (as the code behaves): on a lone leading surrogate followed by a
    non-surrogate, [USVString] does not return U+FFFD followed by that
    character: it throws a ReferenceError on [charCodeAt]; so it does on a
    valid surrogate pair and on a string without surrogates. *)
Theorem USVString_throws_ReferenceError (host : Host) :
  export_USVString host (VString [0xD800; 0x61]) opts.empty
  = Throw (EngineReferenceError "charCodeAt")
  /\ export_USVString host (VString [0xD83D; 0xDE00]) opts.empty
     = Throw (EngineReferenceError "charCodeAt")
  /\ export_USVString host (VString [0x61]) opts.empty
     = Throw (EngineReferenceError "charCodeAt").
Proof. repeat split. Qed.

(** ** Buffers and views *)

(** C2 (as the code behaves): [ArrayBuffer] fails on every shared buffer
    with the error of [makeException], with [allowShared] unset and also
    with [allowShared=true]. *)
Theorem ArrayBuffer_rejects_shared_buffers
  (host : Host) (id : nat) (o : opts.t) :
  export_ArrayBuffer host (VObject (SharedArrayBufferObj id)) o
  = Throw (makeException TypeErrorCtor "is not an ArrayBuffer" o)
  /\ export_ArrayBuffer host (VObject (SharedArrayBufferObj id))
       allowShared_opts
     = Throw (ErrorObject TypeErrorCtor "Value is not an ArrayBuffer.")
  /\ export_ArrayBuffer host (VObject (SharedArrayBufferObj id)) opts.empty
     = Throw (ErrorObject TypeErrorCtor "Value is not an ArrayBuffer.").
Proof.
  repeat split.
  unfold export_ArrayBuffer. cbn [isNonSharedArrayBuffer negb
    isSharedArrayBuffer]. rewrite andb_false_r. reflexivity.
Qed.

(** A non-shared buffer that is not detached is returned as it is, with
    or without [allowShared]. *)
Lemma ArrayBuffer_accepts_attached_buffers
  (host : Host) (id : nat) (o : opts.t) :
  export_ArrayBuffer host (VObject (ArrayBufferObj id false)) o
  = Normal (VObject (ArrayBufferObj id false)).
Proof. reflexivity. Qed.

(** The union converter takes the shared buffer that [ArrayBuffer]
    refuses: with [allowShared] it returns it as it is. *)
Lemma BufferSource_accepts_shared_buffers (host : Host) (id : nat) :
  export_BufferSource host (VObject (SharedArrayBufferObj id))
    allowShared_opts
  = Normal (VObject (SharedArrayBufferObj id)).
Proof. reflexivity. Qed.

(** The generic view converter, which reads [V.buffer] as a property,
    returns a DataView over an attached, non-shared buffer as it is. *)
Lemma ArrayBufferView_accepts_DataView
  (host : Host) (id id' : nat) (o : opts.t) :
  export_ArrayBufferView host
    (VObject (DataViewObj id (ArrayBufferObj id' false))) o
  = Normal (VObject (DataViewObj id (ArrayBufferObj id' false))).
Proof.
  unfold export_ArrayBufferView.
  cbn [isView negb get_buffer bind isSharedArrayBuffer
       isArrayBufferDetached].
  rewrite andb_false_r. reflexivity.
Qed.

(** C4 (as the code behaves): [DataView] fails on every genuine DataView,
    whatever its buffer and the options: a DataView is not callable, so the
    probe [apply(V, dvByteLengthGetter, emptyList)] throws and the converter
    reports that the value is not a DataView. *)
Theorem DataView_rejects_every_DataView
  (host : Host) (id : nat) (buffer : JsObject) (o : opts.t) :
  export_DataView host (VObject (DataViewObj id buffer)) o
  = Throw (makeException TypeErrorCtor "is not a DataView" o)
  /\ export_DataView host (VObject (DataViewObj id (ArrayBufferObj 0 false)))
       opts.empty
     = Throw (ErrorObject TypeErrorCtor "Value is not a DataView.").
Proof. split; reflexivity. Qed.

(** No input at all makes [export_DataView] return: when the probe does
    not throw, the plain call [dvBufferGetter(V)] does. *)
Lemma DataView_never_returns (host : Host) (V : JsValue) (o : opts.t) :
  exists e, export_DataView host V o = Throw e.
Proof.
  unfold export_DataView.
  destruct (apply host V dvByteLengthGetter []);
    [exists EngineTypeError | eexists]; reflexivity.
Qed.

(** ** Further properties of the buffer and view converters *)

(** X1: [ArrayBuffer] returns exactly on a non-shared buffer that is not
    detached, and what it returns is the value it was given; this does not
    depend on the options. *)
Theorem ArrayBuffer_returns_iff
  (host : Host) (V r : JsValue) (o : opts.t) :
  export_ArrayBuffer host V o = Normal r
  <-> r = V /\ exists id, V = VObject (ArrayBufferObj id false).
Proof.
  unfold export_ArrayBuffer. split.
  - destruct V as [| | b | x | s | i | z | ob];
      try (cbn [isNonSharedArrayBuffer negb];
           destruct (opts.allowShared o && _); discriminate).
    destruct ob as [id d | id | id b | id n b | id | n | id];
      try (cbn [isNonSharedArrayBuffer negb];
           destruct (opts.allowShared o && _); discriminate).
    cbn [isNonSharedArrayBuffer negb isArrayBufferDetached].
    destruct d; [discriminate|].
    intros H. injection H as <-. split; [reflexivity | exists id; reflexivity].
  - intros [-> [id ->]]. reflexivity.
Qed.

(** [ArrayBuffer] refuses a detached buffer whether or not
    [allowShared] is set, with the error of [makeException]. *)
Theorem ArrayBuffer_rejects_detached
  (host : Host) (id : nat) (o : opts.t) :
  export_ArrayBuffer host (VObject (ArrayBufferObj id true)) o
  = Throw (makeException TypeErrorCtor "is a detached ArrayBuffer" o).
Proof. reflexivity. Qed.

(** X2: on a view (a DataView or a typed array) over a buffer,
    [ArrayBufferView] returns the view itself when the buffer is attached
    and non-shared; it fails on a detached buffer whatever [allowShared]
    is; over a shared buffer it returns the view exactly when
    [allowShared] is set. *)
Theorem ArrayBufferView_on_views
  (host : Host) (V : JsValue) (b : JsObject) (o : opts.t) :
  isView V = true ->
  get_buffer V = Normal (VObject b) ->
  match b with
  | ArrayBufferObj _ true =>
      export_ArrayBufferView host V o
      = Throw (makeException TypeErrorCtor
                 "is a view on a detached ArrayBuffer" o)
  | ArrayBufferObj _ false => export_ArrayBufferView host V o = Normal V
  | SharedArrayBufferObj _ =>
      export_ArrayBufferView host V o
      = if opts.allowShared o then Normal V
        else Throw (makeException TypeErrorCtor
                      "is a view on a SharedArrayBuffer, which is not allowed"
                      o)
  | _ => True
  end.
Proof.
  intros Hv Hb. unfold export_ArrayBufferView. rewrite Hv, Hb.
  cbn [negb bind].
  destruct b as [id d | id | id b' | id n b' | id | n | id]; try exact I.
  - cbn [isSharedArrayBuffer isArrayBufferDetached].
    rewrite andb_false_r. destruct d; reflexivity.
  - cbn [isSharedArrayBuffer isArrayBufferDetached].
    rewrite andb_true_r. destruct (opts.allowShared o); reflexivity.
Qed.

Lemma ArrayBufferView_on_views_witness :
  isView (VObject (TypedArrayObj 1 Float32Array (SharedArrayBufferObj 2)))
  = true
  /\ get_buffer
       (VObject (TypedArrayObj 1 Float32Array (SharedArrayBufferObj 2)))
     = Normal (VObject (SharedArrayBufferObj 2))
  /\ export_ArrayBufferView plain_host
       (VObject (TypedArrayObj 1 Float32Array (SharedArrayBufferObj 2)))
       allowShared_opts
     = Normal
         (VObject (TypedArrayObj 1 Float32Array (SharedArrayBufferObj 2))).
Proof.
  split; [reflexivity | split; [reflexivity|]].
  exact (ArrayBufferView_on_views plain_host
           (VObject (TypedArrayObj 1 Float32Array (SharedArrayBufferObj 2)))
           (SharedArrayBufferObj 2) allowShared_opts eq_refl eq_refl).
Defined.

(** [ArrayBufferView] fails on everything that is not a view, buffers
    included. *)
Theorem ArrayBufferView_rejects_non_views
  (host : Host) (V : JsValue) (o : opts.t) :
  isView V = false ->
  export_ArrayBufferView host V o
  = Throw (makeException TypeErrorCtor
             "is not a view on an ArrayBuffer or SharedArrayBuffer" o).
Proof.
  intros Hv. unfold export_ArrayBufferView. rewrite Hv. reflexivity.
Qed.

Lemma ArrayBufferView_rejects_non_views_witness :
  isView (VObject (ArrayBufferObj 3 false)) = false
  /\ export_ArrayBufferView plain_host (VObject (ArrayBufferObj 3 false))
       opts.empty
     = Throw (ErrorObject TypeErrorCtor
            "Value is not a view on an ArrayBuffer or SharedArrayBuffer.").
Proof.
  split; [reflexivity|].
  exact (ArrayBufferView_rejects_non_views plain_host
           (VObject (ArrayBufferObj 3 false)) opts.empty eq_refl).
Defined.

(** X3: [BufferSource] returns for no view at all: on every DataView and
    typed array the view branch throws a ReferenceError on the unbound
    [A], whatever the buffer and the options. *)
Theorem BufferSource_throws_on_views
  (host : Host) (V : JsValue) (o : opts.t) :
  isView V = true ->
  export_BufferSource host V o = Throw (EngineReferenceError "A").
Proof.
  intros Hv. unfold export_BufferSource. rewrite Hv. reflexivity.
Qed.

Lemma BufferSource_throws_on_views_witness :
  isView (VObject (DataViewObj 1 (ArrayBufferObj 2 false))) = true
  /\ export_BufferSource plain_host
       (VObject (DataViewObj 1 (ArrayBufferObj 2 false))) opts.empty
     = Throw (EngineReferenceError "A").
Proof.
  split; [reflexivity|].
  exact (BufferSource_throws_on_views plain_host
           (VObject (DataViewObj 1 (ArrayBufferObj 2 false))) opts.empty
           eq_refl).
Defined.

(** X4: [BufferSource] returns exactly on an attached non-shared buffer
    and, when [allowShared] is set, on a shared buffer; what it returns is
    the value it was given. *)
Theorem BufferSource_returns_iff
  (host : Host) (V r : JsValue) (o : opts.t) :
  export_BufferSource host V o = Normal r
  <-> r = V
      /\ ((exists id, V = VObject (ArrayBufferObj id false))
          \/ (opts.allowShared o = true
              /\ exists id, V = VObject (SharedArrayBufferObj id))).
Proof.
  unfold export_BufferSource. split.
  - destruct V as [| | b | x | s | i | z | ob];
      try (cbn [isView isNonSharedArrayBuffer isSharedArrayBuffer negb];
           destruct (opts.allowShared o); discriminate).
    destruct ob as [id d | id | id b | id n b | id | n | id];
      try (cbn [isView isNonSharedArrayBuffer isSharedArrayBuffer negb];
           destruct (opts.allowShared o); discriminate).
    + cbn [isView isNonSharedArrayBuffer isSharedArrayBuffer negb
           isArrayBufferDetached].
      rewrite !andb_false_r. destruct d; [discriminate|].
      intros H. injection H as <-.
      split; [reflexivity | left; exists id; reflexivity].
    + cbn [isView isNonSharedArrayBuffer isSharedArrayBuffer negb
           isArrayBufferDetached].
      destruct (opts.allowShared o); [|discriminate].
      cbn [negb andb]. intros H. injection H as <-.
      split; [reflexivity | right; split; [reflexivity|]].
      exists id; reflexivity.
  - intros [-> [[id ->] | [Ha [id ->]]]].
    + cbn [isView isNonSharedArrayBuffer isSharedArrayBuffer negb
           isArrayBufferDetached].
      rewrite !andb_false_r. reflexivity.
    + cbn [isView isNonSharedArrayBuffer isSharedArrayBuffer negb
           isArrayBufferDetached].
      rewrite Ha. reflexivity.
Qed.

(** X5: a typed array converter returns for no input: a value that is not
    a typed array of the requested kind is refused with the message that
    names the kind, with its article, and a typed array of the requested
    kind makes the plain call [typedArrayBufferGetter(V)] throw the
    engine's TypeError. *)
Theorem typed_array_converters_never_return
  (host : Host) (func : TypedArrayName) (V : JsValue) (o : opts.t) :
  specializeTypedArrayConverter host func V o
  = match V with
    | VObject (TypedArrayObj _ name _) =>
        if String.eqb (TypedArray_name name) (TypedArray_name func)
        then Throw EngineTypeError
        else Throw (makeException TypeErrorCtor
                      ("is not " ++ article (TypedArray_name func) ++ " "
                         ++ TypedArray_name func ++ " object") o)
    | _ => Throw (makeException TypeErrorCtor
                    ("is not " ++ article (TypedArray_name func) ++ " "
                       ++ TypedArray_name func ++ " object") o)
    end.
Proof.
  unfold specializeTypedArrayConverter.
  destruct V as [| | b | x | s | i | z | ob]; try reflexivity.
  destruct ob as [id d | id | id b | id n b | id | n | id]; try reflexivity.
  cbn [isView negb typedArrayNameGetter orb].
  destruct (String.eqb (TypedArray_name n) (TypedArray_name func));
    reflexivity.
Qed.

(** ** Further properties of the object and string converters *)

(** X6: whatever [Function] accepts, [object] accepts too, and both return
    the value they were given. *)
Theorem Function_accepted_implies_object_accepted
  (V r : JsValue) (o : opts.t) :
  export_Function V o = Normal r ->
  r = V /\ export_object V o = Normal V.
Proof.
  unfold export_Function, convertCallbackFunction, export_object.
  destruct V as [| | b | x | s | i | z | ob]; try discriminate.
  destruct ob; try discriminate;
    intros H; injection H as <-; split; reflexivity.
Qed.

Lemma Function_accepted_implies_object_accepted_witness :
  export_Function (VObject (FunctionObj 4)) opts.empty
  = Normal (VObject (FunctionObj 4))
  /\ export_object (VObject (FunctionObj 4)) opts.empty
     = Normal (VObject (FunctionObj 4)).
Proof.
  split; [reflexivity|].
  exact (proj2 (Function_accepted_implies_object_accepted
                  (VObject (FunctionObj 4)) (VObject (FunctionObj 4))
                  opts.empty eq_refl)).
Defined.

(** X7: [object] fails on every primitive, [null] included, and returns
    every object as it is. *)
Theorem object_returns_iff (V r : JsValue) (o : opts.t) :
  export_object V o = Normal r <-> r = V /\ exists ob, V = VObject ob.
Proof.
  unfold export_object. split.
  - destruct V as [| | b | x | s | i | z | ob]; try discriminate.
    intros H. injection H as <-. split; [reflexivity | exists ob; reflexivity].
  - intros [-> [ob ->]]. reflexivity.
Qed.

(** [boolean] is idempotent: converting its result again gives the
    same boolean. *)
Theorem boolean_idempotent (V : JsValue) (o : opts.t) :
  twice export_boolean V o = export_boolean V o.
Proof.
  unfold twice, export_boolean. cbn [bind ToBoolean]. reflexivity.
Qed.

(** X8: the three string converters refuse a symbol with the same
    [makeException] error, whatever the options are (alternate realm and
    [treatNullAsEmptyString] included). *)
Theorem string_converters_reject_symbols
  (host : Host) (id : nat) (o : opts.t) :
  let e := makeException TypeErrorCtor
             "is a symbol, which cannot be converted to a string" o in
  export_DOMString host (VSymbol id) o = Throw e
  /\ export_ByteString host (VSymbol id) o = Throw e
  /\ export_USVString host (VSymbol id) o = Throw e.
Proof. repeat split. Qed.

Lemma lt_of_int (a b : Z) : F64.lt (of_int a) (of_int b) = (a <? b).
Proof.
  unfold F64.lt, of_int, val. pose proof scale_pos.
  destruct (a <? b) eqn:Hab.
  - apply Z.ltb_lt in Hab. apply Z.ltb_lt. nia.
  - apply Z.ltb_ge in Hab. apply Z.ltb_ge. nia.
Qed.

Lemma codePointAt_single (c : Z) : codePointAt [c] 0 = of_int c.
Proof.
  unfold codePointAt. cbn [List.length Z.of_nat Z.leb Z.ltb Z.compare andb
    Z.to_nat nth Z.add Z.eqb Pos.of_succ_nat Pos.eqb].
  rewrite orb_true_r. reflexivity.
Qed.

Lemma codePointAt_pair (c d : Z) :
  is_leading_surrogate c = true ->
  is_trailing_surrogate d = true ->
  codePointAt [c; d] 0
  = of_int ((c - 0xD800) * 0x400 + (d - 0xDC00) + 0x10000).
Proof.
  intros Hc Hd. unfold codePointAt.
  change (Z.of_nat (List.length [c; d])) with 2.
  change ((0 <=? 0) && (0 <? 2)) with true.
  change (nth (Z.to_nat 0) [c; d] 0) with c.
  change (nth (Z.to_nat (0 + 1)) [c; d] 0) with d.
  change (0 + 1 =? 2) with false.
  cbv zeta. rewrite Hc, Hd. reflexivity.
Qed.

(** The loop of [export_ByteString] passes exactly when no code unit of
    the string exceeds 0xFF. *)
Lemma ByteString_loop_spec (s : jsstring) (o : opts.t) :
  ByteString_loop (String_iterator s) o
  = if forallb (fun c => c <=? 0xFF) s then Normal tt
    else Throw (makeException TypeErrorCtor "is not a valid ByteString" o).
Proof.
  induction s as [| c rest IH]; [reflexivity|].
  assert (Hsingle :
            ByteString_loop ([c] :: String_iterator rest) o
            = if forallb (fun c => c <=? 0xFF) (c :: rest) then Normal tt
              else Throw (makeException TypeErrorCtor
                            "is not a valid ByteString" o)).
  { cbn [ByteString_loop forallb]. rewrite codePointAt_single.
    unfold F64.gt. rewrite lt_of_int, IH.
    destruct (c <=? 255) eqn:Hc.
    - apply Z.leb_le in Hc.
      assert (Hlt : (255 <? c) = false) by (apply Z.ltb_ge; lia).
      rewrite Hlt. reflexivity.
    - apply Z.leb_gt in Hc.
      assert (Hlt : (255 <? c) = true) by (apply Z.ltb_lt; lia).
      rewrite Hlt. reflexivity. }
  destruct rest as [| d rest']; [exact Hsingle|].
  change (String_iterator (c :: d :: rest'))
    with (if is_leading_surrogate c && is_trailing_surrogate d
          then [c; d] :: String_iterator rest'
          else [c] :: String_iterator (d :: rest')).
  destruct (is_leading_surrogate c) eqn:Hc; [|exact Hsingle].
  destruct (is_trailing_surrogate d) eqn:Hd; [|exact Hsingle].
  cbn [andb ByteString_loop]. rewrite (codePointAt_pair c d Hc Hd).
  unfold F64.gt. rewrite lt_of_int.
  unfold is_leading_surrogate in Hc. unfold is_trailing_surrogate in Hd.
  apply andb_true_iff in Hc. destruct Hc as [Hc1 Hc2].
  apply andb_true_iff in Hd. destruct Hd as [Hd1 Hd2].
  apply Z.leb_le in Hc1, Hc2, Hd1, Hd2.
  assert (Hlt : (255 <? (c - 55296) * 1024 + (d - 56320) + 65536) = true)
    by (apply Z.ltb_lt; lia).
  rewrite Hlt. cbn [forallb].
  assert (Hle : (c <=? 255) = false) by (apply Z.leb_gt; lia).
  rewrite Hle. reflexivity.
Qed.

(** X9: on a string (without an alternate realm) [ByteString] returns the
    string unchanged when every code unit is at most 0xFF, and fails with
    the [makeException] error as soon as one is above, surrogates
    included. *)
Theorem ByteString_on_strings
  (host : Host) (s : jsstring) (o : opts.t) :
  opts.globals o = None ->
  export_ByteString host (VString s) o
  = if forallb (fun c => c <=? 0xFF) s then Normal (VString s)
    else Throw (makeException TypeErrorCtor "is not a valid ByteString" o).
Proof.
  intros Hg. unfold export_ByteString, export_DOMString.
  rewrite Hg. cbn [String_ bind]. rewrite ByteString_loop_spec.
  destruct (forallb _ s); reflexivity.
Qed.

Lemma ByteString_on_strings_witness :
  opts.globals opts.empty = None
  /\ export_ByteString plain_host (VString [0x68; 0xE9]) opts.empty
     = Normal (VString [0x68; 0xE9])
  /\ export_ByteString plain_host (VString [0x68; 0x100]) opts.empty
     = Throw (ErrorObject TypeErrorCtor "Value is not a valid ByteString.").
Proof.
  split; [reflexivity|].
  split.
  - exact (ByteString_on_strings plain_host [0x68; 0xE9] opts.empty eq_refl).
  - exact (ByteString_on_strings plain_host [0x68; 0x100] opts.empty eq_refl).
Defined.

(** ** Further properties of the integer converters *)

Lemma lt_big_of_int (z b : Z) : lt_big (of_int z) b = (z <? b).
Proof.
  unfold lt_big, of_int, val. pose proof scale_pos.
  destruct (z <? b) eqn:Hb.
  - apply Z.ltb_lt in Hb. apply Z.ltb_lt. nia.
  - apply Z.ltb_ge in Hb. apply Z.ltb_ge. nia.
Qed.

Lemma gt_big_of_int (z b : Z) : gt_big (of_int z) b = (b <? z).
Proof.
  unfold gt_big, of_int, val. pose proof scale_pos.
  destruct (b <? z) eqn:Hb.
  - apply Z.ltb_lt in Hb. apply Z.ltb_lt. nia.
  - apply Z.ltb_ge in Hb. apply Z.ltb_ge. nia.
Qed.

Lemma integerPart_censorNegativeZero_Fin (k : Z) :
  integerPart (censorNegativeZero (Fin k)) = of_int (Z.quot k scale).
Proof.
  destruct (Z.eq_dec k 0) as [-> | Hk].
  - reflexivity.
  - rewrite (censorNegativeZero_Fin_nonzero k Hk). apply integerPart_Fin.
Qed.

Lemma out_of_range_bool (lo hi z : Z) :
  (z <? lo) || (hi <? z) = negb ((lo <=? z) && (z <=? hi)).
Proof.
  destruct (z <? lo) eqn:H1; destruct (hi <? z) eqn:H2;
    destruct (lo <=? z) eqn:H3; destruct (z <=? hi) eqn:H4;
    try reflexivity; exfalso;
    repeat match goal with
      | H : (_ <? _) = true |- _ => apply Z.ltb_lt in H
      | H : (_ <? _) = false |- _ => apply Z.ltb_ge in H
      | H : (_ <=? _) = true |- _ => apply Z.leb_le in H
      | H : (_ <=? _) = false |- _ => apply Z.leb_gt in H
      end; lia.
Qed.

Section MoreIntegerConverters.

Variable host : Host.

(** The strict policy of the 8-, 16- and 32-bit converters on a finite
    Number. *)
Lemma createIntegerConversion_enforceRange_Fin
  (bitLength : Z) (unsigned : bool) (k : Z) (o : opts.t) :
  In bitLength [8; 16; 32] ->
  opts.enforceRange o = true ->
  opts.globals o = None ->
  let lo := if unsigned then 0 else - 2 ^ (bitLength - 1) in
  let hi := if unsigned then 2 ^ bitLength - 1 else 2 ^ (bitLength - 1) - 1 in
  createIntegerConversion host bitLength unsigned (VNumber (Fin k)) o
  = if (lo <=? Z.quot k scale) && (Z.quot k scale <=? hi)
    then Normal (VNumber (of_int (Z.quot k scale)))
    else Throw (makeException TypeErrorCtor (range_text lo hi) o).
Proof.
  intros Hb He Hg lo hi.
  unfold createIntegerConversion.
  rewrite (integer_bounds_narrow bitLength unsigned Hb).
  cbv beta iota zeta.
  unfold toNumber. rewrite Hg. cbn [ToNumber bind]. rewrite He.
  assert (Hfin : F64.isFinite (censorNegativeZero (Fin k)) = true).
  { unfold censorNegativeZero. destruct (F64.strict_eq _ _); reflexivity. }
  rewrite Hfin. cbn [negb].
  rewrite integerPart_censorNegativeZero_Fin.
  cbn [lt_numeric gt_numeric].
  rewrite lt_big_of_int, gt_big_of_int, out_of_range_bool.
  fold lo hi.
  destruct ((lo <=? Z.quot k scale) && (Z.quot k scale <=? hi));
    reflexivity.
Qed.

(** The strict policy of the 64-bit converters on a finite Number. *)
Lemma createLongLongConversion_enforceRange_Fin
  (unsigned : bool) (k : Z) (o : opts.t) :
  opts.enforceRange o = true ->
  opts.globals o = None ->
  let lo := if unsigned then 0 else MIN_SAFE_INTEGER in
  createLongLongConversion host 64 unsigned (VNumber (Fin k)) o
  = if (lo <=? Z.quot k scale) && (Z.quot k scale <=? MAX_SAFE_INTEGER)
    then Normal (VNumber (of_int (Z.quot k scale)))
    else Throw (makeException TypeErrorCtor
                  (range_text lo MAX_SAFE_INTEGER) o).
Proof.
  intros He Hg lo.
  unfold createLongLongConversion. cbv beta iota zeta.
  unfold toNumber. rewrite Hg. cbn [ToNumber bind]. rewrite He.
  assert (Hfin : F64.isFinite (censorNegativeZero (Fin k)) = true).
  { unfold censorNegativeZero. destruct (F64.strict_eq _ _); reflexivity. }
  rewrite Hfin. cbn [negb].
  rewrite integerPart_censorNegativeZero_Fin.
  assert (Hlo : (if unsigned then Num (Fin 0)
                 else Num (of_int MIN_SAFE_INTEGER)) = Num (of_int lo)).
  { unfold lo. destruct unsigned; reflexivity. }
  rewrite Hlo. cbn [lt_numeric gt_numeric]. unfold F64.gt.
  rewrite !lt_of_int, out_of_range_bool.
  assert (Hmsg : range_message host (Num (of_int lo))
                   (Num (of_int MAX_SAFE_INTEGER))
                 = range_text lo MAX_SAFE_INTEGER).
  { unfold lo. destruct unsigned; vm_compute; reflexivity. }
  rewrite Hmsg.
  destruct ((lo <=? Z.quot k scale) && (Z.quot k scale <=? MAX_SAFE_INTEGER));
    reflexivity.
Qed.

End MoreIntegerConverters.

(** X10: under [enforceRange] (without an alternate realm) each of the
    eight integer converters fails on NaN and on the infinities, and on a
    finite Number it truncates towards zero and then returns the truncated
    Number exactly when it lies within [[lowerBound, upperBound]]; outside
    it fails with the range error that prints the two bounds.  Nothing out
    of range is ever returned. *)
Theorem enforceRange_policy
  (host : Host) (t : NumericType) (lo hi : Z) (x : f64) (o : opts.t) :
  integer_range t = Some (lo, hi) ->
  opts.enforceRange o = true ->
  opts.globals o = None ->
  numeric_converter host t (VNumber x) o
  = match x with
    | NaN | PosInf | NegInf =>
        Throw (makeException TypeErrorCtor "is not a finite number" o)
    | NegZero => Normal (VNumber (Fin 0))
    | Fin k =>
        if (lo <=? Z.quot k scale) && (Z.quot k scale <=? hi)
        then Normal (VNumber (of_int (Z.quot k scale)))
        else Throw (makeException TypeErrorCtor (range_text lo hi) o)
    end.
Proof.
  intros Hr He Hg.
  destruct x as [| | | | k].
  1-4: destruct t; cbn [integer_range] in Hr; try discriminate Hr;
    cbn [numeric_converter];
    unfold export_byte, export_octet, export_short, export_unsigned_short,
      export_long, export_unsigned_long, export_long_long,
      export_unsigned_long_long, createIntegerConversion,
      createLongLongConversion;
    try (rewrite integer_bounds_narrow by (simpl; tauto));
    cbv beta iota zeta; unfold toNumber; rewrite Hg;
    cbn [ToNumber bind]; rewrite He; reflexivity.
  destruct t; cbn [integer_range] in Hr; try discriminate Hr;
    injection Hr as <- <-; cbn [numeric_converter].
  - apply (createIntegerConversion_enforceRange_Fin host 8 false k o);
      [simpl; tauto | exact He | exact Hg].
  - apply (createIntegerConversion_enforceRange_Fin host 8 true k o);
      [simpl; tauto | exact He | exact Hg].
  - apply (createIntegerConversion_enforceRange_Fin host 16 false k o);
      [simpl; tauto | exact He | exact Hg].
  - apply (createIntegerConversion_enforceRange_Fin host 16 true k o);
      [simpl; tauto | exact He | exact Hg].
  - apply (createIntegerConversion_enforceRange_Fin host 32 false k o);
      [simpl; tauto | exact He | exact Hg].
  - apply (createIntegerConversion_enforceRange_Fin host 32 true k o);
      [simpl; tauto | exact He | exact Hg].
  - apply (createLongLongConversion_enforceRange_Fin host false k o He Hg).
  - apply (createLongLongConversion_enforceRange_Fin host true k o He Hg).
Qed.

Lemma enforceRange_policy_witness :
  integer_range unsigned_short = Some (0, 2 ^ 16 - 1)
  /\ opts.enforceRange enforceRange_opts = true
  /\ opts.globals enforceRange_opts = None
  /\ numeric_converter plain_host unsigned_short
       (VNumber (of_ratio 655357 10)) enforceRange_opts
     = Normal (VNumber (of_int 65535))
  /\ numeric_converter plain_host unsigned_short
       (VNumber (of_int 65536)) enforceRange_opts
     = Throw (ErrorObject TypeErrorCtor
                "Value is outside the accepted range of 0 to 65535, inclusive.").
Proof.
  split; [reflexivity|]. split; [reflexivity|]. split; [reflexivity|].
  pose proof (enforceRange_policy plain_host unsigned_short 0 (2 ^ 16 - 1)
                (of_ratio 655357 10) enforceRange_opts
                eq_refl eq_refl eq_refl) as H1.
  pose proof (enforceRange_policy plain_host unsigned_short 0 (2 ^ 16 - 1)
                (of_int 65536) enforceRange_opts
                eq_refl eq_refl eq_refl) as H2.
  split.
  - rewrite H1. vm_compute. reflexivity.
  - rewrite H2. vm_compute. reflexivity.
Defined.

Section DefaultPolicy.

Variable host : Host.

(** The default policy on an input that is not finite or is a zero. *)
Lemma default_policy_zero
  (c : Converter) (x : f64) (o : opts.t) :
  (exists b u, In b [8; 16; 32] /\ c = createIntegerConversion host b u)
  \/ (exists u, c = createLongLongConversion host 64 u) ->
  opts.enforceRange o = false ->
  opts.clamp o = false ->
  opts.globals o = None ->
  negb (F64.isFinite x) || F64.is_zero x = true ->
  c (VNumber x) o = Normal (VNumber (Fin 0)).
Proof.
  intros Hc He Hcl Hg Hx.
  assert (Hz : negb (F64.isFinite (censorNegativeZero x))
               || F64.strict_eq (censorNegativeZero x) (Fin 0) = true).
  { destruct x as [| | | | k]; try reflexivity.
    cbn [F64.isFinite negb orb F64.is_zero] in Hx.
    apply Z.eqb_eq in Hx. subst k. reflexivity. }
  destruct Hc as [[b [u [Hb ->]]] | [u ->]].
  - unfold createIntegerConversion.
    rewrite (integer_bounds_narrow b u Hb). cbv beta iota zeta.
    unfold toNumber. rewrite Hg. cbn [ToNumber bind].
    rewrite He, Hcl, andb_false_r, Hz. reflexivity.
  - unfold createLongLongConversion. cbv beta iota zeta.
    unfold toNumber. rewrite Hg. cbn [ToNumber bind].
    rewrite He, Hcl, andb_false_r, Hz. reflexivity.
Qed.

(** The default policy of the 8-, 16- and 32-bit converters on a finite
    nonzero Number whose integer part is within the bounds. *)
Lemma createIntegerConversion_default_in_range
  (bitLength : Z) (unsigned : bool) (k : Z) (o : opts.t) :
  In bitLength [8; 16; 32] ->
  opts.enforceRange o = false ->
  opts.clamp o = false ->
  opts.globals o = None ->
  k <> 0 ->
  (if unsigned then 0 else - 2 ^ (bitLength - 1)) <= Z.quot k scale
  <= (if unsigned then 2 ^ bitLength - 1 else 2 ^ (bitLength - 1) - 1) ->
  createIntegerConversion host bitLength unsigned (VNumber (Fin k)) o
  = Normal (VNumber (of_int (Z.quot k scale))).
Proof.
  intros Hb He Hc Hg Hk [Hl Hu].
  unfold createIntegerConversion.
  rewrite (integer_bounds_narrow bitLength unsigned Hb).
  cbv beta iota zeta.
  unfold toNumber. rewrite Hg. cbn [ToNumber bind].
  rewrite (censorNegativeZero_Fin_nonzero k Hk).
  rewrite He, Hc, andb_false_r.
  cbn [F64.isFinite negb orb].
  rewrite (strict_eq_Fin_0 k).
  apply Z.eqb_neq in Hk. rewrite Hk.
  rewrite integerPart_Fin.
  cbn [ge_numeric le_numeric].
  rewrite ge_big_of_int, le_big_of_int.
  apply Z.leb_le in Hl. apply Z.leb_le in Hu.
  rewrite Hl, Hu. reflexivity.
Qed.

End DefaultPolicy.

(** X11: under the default policy (no alternate realm) each of the eight
    integer converters returns the Number 0 for NaN, for both infinities
    and for both zeros. *)
Theorem default_policy_non_finite_or_zero
  (host : Host) (t : NumericType) (lo hi : Z) (x : f64) (o : opts.t) :
  integer_range t = Some (lo, hi) ->
  opts.enforceRange o = false ->
  opts.clamp o = false ->
  opts.globals o = None ->
  negb (F64.isFinite x) || F64.is_zero x = true ->
  numeric_converter host t (VNumber x) o = Normal (VNumber (Fin 0)).
Proof.
  intros Hr He Hc Hg Hx.
  apply (default_policy_zero host); try assumption.
  destruct t; cbn [integer_range] in Hr; try discriminate Hr;
    cbn [numeric_converter];
    unfold export_byte, export_octet, export_short, export_unsigned_short,
      export_long, export_unsigned_long, export_long_long,
      export_unsigned_long_long.
  - left. exists 8, false. split; [simpl; tauto | reflexivity].
  - left. exists 8, true. split; [simpl; tauto | reflexivity].
  - left. exists 16, false. split; [simpl; tauto | reflexivity].
  - left. exists 16, true. split; [simpl; tauto | reflexivity].
  - left. exists 32, false. split; [simpl; tauto | reflexivity].
  - left. exists 32, true. split; [simpl; tauto | reflexivity].
  - right. exists false. reflexivity.
  - right. exists true. reflexivity.
Qed.

Lemma default_policy_non_finite_or_zero_witness :
  integer_range long_long = Some (MIN_SAFE_INTEGER, MAX_SAFE_INTEGER)
  /\ opts.enforceRange opts.empty = false
  /\ opts.clamp opts.empty = false
  /\ opts.globals opts.empty = None
  /\ negb (F64.isFinite NegInf) || F64.is_zero NegInf = true
  /\ numeric_converter plain_host long_long (VNumber NegInf) opts.empty
     = Normal (VNumber (Fin 0)).
Proof.
  split; [reflexivity|]. split; [reflexivity|]. split; [reflexivity|].
  split; [reflexivity|]. split; [reflexivity|].
  exact (default_policy_non_finite_or_zero plain_host long_long
           MIN_SAFE_INTEGER MAX_SAFE_INTEGER NegInf opts.empty
           eq_refl eq_refl eq_refl eq_refl eq_refl).
Defined.

(** X12: under the default policy the 8-, 16- and 32-bit converters
    truncate a finite nonzero Number towards zero and return the truncated
    Number when it lies within the bounds (a fraction is dropped, nothing
    is rounded); when it lies outside they return nothing: the call throws
    the ReferenceError of [sign]. *)
Theorem default_policy_narrow
  (host : Host) (bitLength : Z) (unsigned : bool) (k : Z) (o : opts.t) :
  In bitLength [8; 16; 32] ->
  opts.enforceRange o = false ->
  opts.clamp o = false ->
  opts.globals o = None ->
  k <> 0 ->
  let lo := if unsigned then 0 else - 2 ^ (bitLength - 1) in
  let hi := if unsigned then 2 ^ bitLength - 1 else 2 ^ (bitLength - 1) - 1 in
  createIntegerConversion host bitLength unsigned (VNumber (Fin k)) o
  = if (lo <=? Z.quot k scale) && (Z.quot k scale <=? hi)
    then Normal (VNumber (of_int (Z.quot k scale)))
    else Throw (EngineReferenceError "Positive").
Proof.
  intros Hb He Hc Hg Hk lo hi.
  destruct ((lo <=? Z.quot k scale) && (Z.quot k scale <=? hi)) eqn:Hin.
  - apply andb_true_iff in Hin. destruct Hin as [Hl Hu].
    apply Z.leb_le in Hl. apply Z.leb_le in Hu.
    apply createIntegerConversion_default_in_range; try assumption.
    split; assumption.
  - apply andb_false_iff in Hin.
    apply createIntegerConversion_out_of_range_throws; try assumption.
    destruct Hin as [H | H]; apply Z.leb_gt in H; [left | right]; exact H.
Qed.

Lemma default_policy_narrow_witness :
  In 16 [8; 16; 32]
  /\ opts.enforceRange opts.empty = false
  /\ opts.clamp opts.empty = false
  /\ opts.globals opts.empty = None
  /\ val (of_ratio (-327689) 10) <> 0
  /\ export_short plain_host (VNumber (of_ratio (-327689) 10)) opts.empty
     = Normal (VNumber (of_int (-32768))).
Proof.
  assert (Hk : val (of_ratio (-327689) 10) <> 0).
  { vm_compute. discriminate. }
  split; [simpl; tauto|]. split; [reflexivity|]. split; [reflexivity|].
  split; [reflexivity|]. split; [exact Hk|].
  pose proof (default_policy_narrow plain_host 16 false
                (val (of_ratio (-327689) 10)) opts.empty
                ltac:(simpl; tauto) eq_refl eq_refl eq_refl Hk) as H.
  vm_compute in H. vm_compute. exact H.
Defined.

(** X13: under the default policy the 64-bit converters map a finite
    nonzero Number to a BigInt of the 64-bit window that is congruent,
    modulo 2^64, to the Number's integer part: [-2^63 <= r < 2^63] for
    [long long], [0 <= r < 2^64] for [unsigned long long]. *)
Theorem long_long_default_wraps
  (host : Host) (unsigned : bool) (k : Z) (o : opts.t) :
  opts.enforceRange o = false ->
  opts.clamp o = false ->
  opts.globals o = None ->
  k <> 0 ->
  exists r : Z,
    createLongLongConversion host 64 unsigned (VNumber (Fin k)) o
    = Normal (VBigInt r)
    /\ (r - Z.quot k scale) mod 2 ^ 64 = 0
    /\ if unsigned then 0 <= r < 2 ^ 64 else - 2 ^ 63 <= r < 2 ^ 63.
Proof.
  intros He Hc Hg Hk.
  exists ((if unsigned then asUintN else asIntN) 64 (Z.quot k scale)).
  split; [apply createLongLongConversion_default; assumption|].
  destruct unsigned.
  - split; [|apply asUintN_64_range].
    unfold asUintN.
    rewrite Zminus_mod_idemp_l, Z.sub_diag. reflexivity.
  - split; [|apply asIntN_64_range].
    unfold asIntN. change (64 - 1) with 63.
    destruct (2 ^ 63 <=? Z.quot k scale mod 2 ^ 64).
    + replace (Z.quot k scale mod 2 ^ 64 - 2 ^ 64 - Z.quot k scale)
        with (Z.quot k scale mod 2 ^ 64 - Z.quot k scale + (-1) * 2 ^ 64)
        by ring.
      rewrite Z.mod_add by lia.
      rewrite Zminus_mod_idemp_l, Z.sub_diag. reflexivity.
    + rewrite Zminus_mod_idemp_l, Z.sub_diag. reflexivity.
Qed.

Lemma long_long_default_wraps_witness :
  opts.enforceRange opts.empty = false
  /\ opts.clamp opts.empty = false
  /\ opts.globals opts.empty = None
  /\ (2 ^ 63) * scale <> 0
  /\ exists r : Z,
       export_long_long plain_host (VNumber (of_int (2 ^ 63))) opts.empty
       = Normal (VBigInt r)
       /\ (r - Z.quot (2 ^ 63 * scale) scale) mod 2 ^ 64 = 0
       /\ - 2 ^ 63 <= r < 2 ^ 63.
Proof.
  assert (Hk : (2 ^ 63) * scale <> 0).
  { vm_compute. discriminate. }
  split; [reflexivity|]. split; [reflexivity|]. split; [reflexivity|].
  split; [exact Hk|].
  exact (long_long_default_wraps plain_host false (2 ^ 63 * scale)
           opts.empty eq_refl eq_refl eq_refl Hk).
Defined.

(** X14: no converter of the numeric family accepts a BigInt, with or
    without an alternate realm: [toNumber] throws on it and the converter
    throws the same exception. *)
Theorem numeric_converters_reject_BigInt
  (host : Host) (t : NumericType) (z : Z) (o : opts.t) :
  exists e : Exception,
    toNumber host (VBigInt z) o = Throw e
    /\ numeric_converter host t (VBigInt z) o = Throw e.
Proof.
  assert (Hn : exists e, toNumber host (VBigInt z) o = Throw e).
  { unfold toNumber. destruct (opts.globals o) as [g|]; [|eexists; reflexivity].
    destruct (g_TypeError g); eexists; reflexivity. }
  destruct Hn as [e Hn]. exists e. split; [exact Hn|].
  destruct t; cbn [numeric_converter];
    unfold export_byte, export_octet, export_short, export_unsigned_short,
      export_long, export_unsigned_long, export_long_long,
      export_unsigned_long_long, export_double, export_unrestricted_double,
      export_float, export_unrestricted_float,
      createIntegerConversion, createLongLongConversion;
    try (rewrite integer_bounds_narrow by (simpl; tauto));
    cbv beta iota zeta; rewrite Hn; reflexivity.
Qed.

(** ** Rounding in the Number model *)

Lemma scale_eq : scale = 2 ^ 1074.
Proof. vm_compute. reflexivity. Qed.

Lemma round_even_exact (p least m e : Z) :
  0 < p -> 0 <= m < 2 ^ p -> 0 <= least <= e ->
  round_even p least (m * 2 ^ e) = m * 2 ^ e.
Proof.
  intros Hp Hm He. unfold round_even.
  set (a := m * 2 ^ e).
  set (drop := Z.max least (Z.log2 a + 1 - p)).
  destruct (drop <=? 0) eqn:Hd; [reflexivity|].
  apply Z.leb_gt in Hd.
  assert (Hle : drop <= e).
  { unfold drop. apply Z.max_lub; [lia|].
    destruct (Z.eq_dec m 0) as [-> | Hm0].
    - unfold a. rewrite Z.mul_0_l. change (Z.log2 0) with 0. lia.
    - unfold a. rewrite Z.log2_mul_pow2 by lia.
      assert (Z.log2 m < p) by (apply Z.log2_lt_pow2; lia). lia. }
  assert (Ha : a = (m * 2 ^ (e - drop)) * 2 ^ drop).
  { unfold a. rewrite <- Z.mul_assoc, <- Z.pow_add_r by lia.
    f_equal. f_equal. lia. }
  assert (Hq : Z.shiftr a drop = m * 2 ^ (e - drop)).
  { rewrite Z.shiftr_div_pow2 by lia. rewrite Ha.
    apply Z.div_mul. apply Z.pow_nonzero; lia. }
  rewrite Hq.
  assert (Hs : Z.shiftl (m * 2 ^ (e - drop)) drop = a).
  { rewrite Z.shiftl_mul_pow2 by lia. symmetry. exact Ha. }
  rewrite Hs, Z.sub_diag.
  assert (Hh : 0 < Z.shiftl 1 (drop - 1)).
  { rewrite Z.shiftl_mul_pow2 by lia. rewrite Z.mul_1_l.
    apply Z.pow_pos_nonneg; lia. }
  assert (H1 : (Z.shiftl 1 (drop - 1) <? 0) = false) by (apply Z.ltb_ge; lia).
  assert (H2 : (Z.shiftl 1 (drop - 1) =? 0) = false) by (apply Z.eqb_neq; lia).
  rewrite H1, H2. cbn [orb andb]. exact Hs.
Qed.

(** A signed value with a short significand survives [narrow]. *)
Lemma narrow_exact (p least emax m e : Z) :
  0 < p -> Z.abs m < 2 ^ p -> 0 <= least <= e ->
  Z.abs (m * 2 ^ e) < 2 ^ (emax + 1074) ->
  narrow p least emax (m * 2 ^ e <? 0) (Z.abs (m * 2 ^ e)) = Fin (m * 2 ^ e).
Proof.
  intros Hp Hm He Hmax. unfold narrow.
  assert (Hpow : 0 < 2 ^ e) by (apply Z.pow_pos_nonneg; lia).
  assert (Habs : Z.abs (m * 2 ^ e) = Z.abs m * 2 ^ e).
  { rewrite Z.abs_mul. f_equal. apply Z.abs_eq. lia. }
  cbv zeta.
  replace (round_even p least (Z.abs (m * 2 ^ e)))
    with (Z.abs (m * 2 ^ e))
    by (rewrite Habs; symmetry; apply round_even_exact; lia).
  assert (Ho : (2 ^ (emax + 1074) <=? Z.abs (m * 2 ^ e)) = false)
    by (apply Z.leb_gt; lia).
  rewrite Ho.
  destruct (Z.abs (m * 2 ^ e) =? 0) eqn:Hz.
  - apply Z.eqb_eq in Hz.
    assert (Hk : m * 2 ^ e = 0) by lia.
    rewrite Hk. reflexivity.
  - destruct (m * 2 ^ e <? 0) eqn:Hn.
    + apply Z.ltb_lt in Hn. f_equal. lia.
    + apply Z.ltb_ge in Hn. f_equal. lia.
Qed.

Lemma round64_exact (m e : Z) :
  Z.abs m < 2 ^ 53 -> 0 <= e -> Z.abs (m * 2 ^ e) < 2 ^ 2098 ->
  round64 (m * 2 ^ e) = Fin (m * 2 ^ e).
Proof.
  intros Hm He Hmax. unfold round64.
  apply (narrow_exact 53 0 1024 m e); lia.
Qed.

Lemma fround_exact (m e : Z) :
  Z.abs m < 2 ^ 24 -> 925 <= e -> Z.abs (m * 2 ^ e) < 2 ^ 1202 ->
  fround (Fin (m * 2 ^ e)) = Fin (m * 2 ^ e).
Proof.
  intros Hm He Hmax. unfold fround.
  apply (narrow_exact 24 925 128 m e); lia.
Qed.

(** Rounding never goes below a power of two that the magnitude has
    reached. *)
Lemma round_even_ge_pow2 (p least a N : Z) :
  0 < p -> 0 <= least -> least <= N + 1 - p -> 0 < N + 1 - p ->
  2 ^ N <= a ->
  2 ^ N <= round_even p least a.
Proof.
  intros Hp Hl HN HN' Ha.
  assert (HN0 : 0 <= N) by lia.
  assert (Hpos : 0 < a).
  { pose proof (Z.pow_pos_nonneg 2 N ltac:(lia) HN0). lia. }
  assert (HL : N <= Z.log2 a) by (apply Z.log2_le_pow2; assumption).
  unfold round_even.
  set (drop := Z.max least (Z.log2 a + 1 - p)).
  assert (Hdrop : drop = Z.log2 a + 1 - p) by (unfold drop; lia).
  assert (Hd : (drop <=? 0) = false) by (apply Z.leb_gt; lia).
  rewrite Hd.
  set (q := Z.shiftr a drop).
  assert (Hq : 2 ^ (p - 1) <= q).
  { unfold q. rewrite Z.shiftr_div_pow2 by lia.
    apply Z.div_le_lower_bound; [apply Z.pow_pos_nonneg; lia|].
    rewrite <- Z.pow_add_r by lia.
    replace (drop + (p - 1)) with (Z.log2 a) by lia.
    apply (Z.log2_spec a Hpos). }
  assert (Hres : forall q', q <= q' -> 2 ^ N <= Z.shiftl q' drop).
  { intros q' Hq'. rewrite Z.shiftl_mul_pow2 by lia.
    assert (Hpd : 0 < 2 ^ drop) by (apply Z.pow_pos_nonneg; lia).
    assert (H1 : 2 ^ (p - 1) * 2 ^ drop <= q' * 2 ^ drop)
      by (apply Z.mul_le_mono_nonneg_r; lia).
    rewrite <- Z.pow_add_r in H1 by lia.
    replace (p - 1 + drop) with (Z.log2 a) in H1 by lia.
    assert (H2 : 2 ^ N <= 2 ^ Z.log2 a) by (apply Z.pow_le_mono_r; lia).
    lia. }
  destruct ((Z.shiftl 1 (drop - 1) <? a - Z.shiftl q drop)
            || (Z.shiftl 1 (drop - 1) =? a - Z.shiftl q drop) && Z.odd q);
    apply Hres; lia.
Qed.

(** What [round_even] returns has a significand of [prec] bits above
    [2^least]. *)
Lemma round_even_form (p least a : Z) :
  0 < p -> 0 <= least -> 0 <= a ->
  exists m e, round_even p least a = m * 2 ^ e
              /\ 0 <= m < 2 ^ p /\ least <= e.
Proof.
  intros Hp Hl Ha. unfold round_even.
  set (drop := Z.max least (Z.log2 a + 1 - p)).
  assert (Hlog : a < 2 ^ (Z.log2 a + 1)).
  { destruct (Z.eq_dec a 0) as [-> | Ha0]; [reflexivity|].
    apply (Z.log2_spec a). lia. }
  destruct (drop <=? 0) eqn:Hd.
  - apply Z.leb_le in Hd.
    exists a, 0. rewrite Z.mul_1_r.
    split; [reflexivity|]. split; [|lia].
    split; [exact Ha|].
    assert (2 ^ (Z.log2 a + 1) <= 2 ^ p) by (apply Z.pow_le_mono_r; lia).
    lia.
  - apply Z.leb_gt in Hd.
    set (q := Z.shiftr a drop).
    assert (Hpd : 0 < 2 ^ drop) by (apply Z.pow_pos_nonneg; lia).
    assert (Hq0 : 0 <= q).
    { unfold q. rewrite Z.shiftr_div_pow2 by lia.
      apply Z.div_pos; lia. }
    assert (Hq1 : q < 2 ^ p).
    { unfold q. rewrite Z.shiftr_div_pow2 by lia.
      apply Z.div_lt_upper_bound; [exact Hpd|].
      rewrite <- Z.pow_add_r by lia.
      assert (2 ^ (Z.log2 a + 1) <= 2 ^ (drop + p))
        by (apply Z.pow_le_mono_r; lia).
      lia. }
    assert (Hform : forall q', 0 <= q' <= 2 ^ p ->
              exists m e, Z.shiftl q' drop = m * 2 ^ e
                          /\ 0 <= m < 2 ^ p /\ least <= e).
    { intros q' Hq'. rewrite Z.shiftl_mul_pow2 by lia.
      destruct (Z.eq_dec q' (2 ^ p)) as [-> | Hne].
      - exists (2 ^ (p - 1)), (drop + 1).
        split.
        + rewrite <- !Z.pow_add_r by lia. f_equal. lia.
        + split; [|lia].
          split; [apply Z.pow_nonneg; lia|].
          apply Z.pow_lt_mono_r; lia.
      - exists q', drop. split; [reflexivity|]. split; lia. }
    destruct ((Z.shiftl 1 (drop - 1) <? a - Z.shiftl q drop)
              || (Z.shiftl 1 (drop - 1) =? a - Z.shiftl q drop) && Z.odd q);
      apply Hform; lia.
Qed.

(** [Math.fround] is idempotent: its result is a single-precision value. *)
Lemma fround_idempotent (x : f64) : fround (fround x) = fround x.
Proof.
  destruct x as [| | | | k]; try reflexivity.
  unfold fround at 2 3. unfold narrow.
  destruct (round_even_form 24 925 (Z.abs k) ltac:(lia) ltac:(lia)
              (Z.abs_nonneg k)) as [m [e [Hr [Hm He]]]].
  set (r := round_even 24 925 (Z.abs k)) in *.
  destruct (2 ^ (128 + 1074) <=? r) eqn:Ho.
  - destruct (k <? 0); reflexivity.
  - apply Z.leb_gt in Ho.
    destruct (r =? 0) eqn:Hz.
    + destruct (k <? 0); vm_compute; reflexivity.
    + apply Z.eqb_neq in Hz.
      assert (Hpow : 0 < 2 ^ e) by (apply Z.pow_pos_nonneg; lia).
      destruct (k <? 0).
      * replace (- r) with ((- m) * 2 ^ e) by (rewrite Hr; ring).
        apply fround_exact; try lia.
        all: replace (- m * 2 ^ e) with (- r) by (rewrite Hr; ring).
        all: change (2 ^ 1202) with (2 ^ (128 + 1074)); lia.
      * rewrite Hr. apply fround_exact; try lia.
        all: rewrite <- Hr; change (2 ^ 1202) with (2 ^ (128 + 1074)); lia.
Qed.

Section Floats.

Variable host : Host.

(** X15: whatever [float] or [unrestricted float] returns is a Number that
    single-precision narrowing leaves unchanged: NaN, an infinity, [-0], or
    a binary32 value. *)
Theorem float_results_are_single_precision
  (V r : JsValue) (o : opts.t) :
  export_float host V o = Normal r
  \/ export_unrestricted_float host V o = Normal r ->
  exists y, r = VNumber y /\ fround y = y.
Proof.
  unfold export_float, export_unrestricted_float.
  destruct (toNumber host V o) as [x | e]; cbn [bind];
    [|intros [H | H]; discriminate H].
  intros [H | H].
  - destruct (F64.isFinite x); cbn [negb] in H; [|discriminate H].
    destruct (is_neg_zero x).
    + injection H as <-. exists NegZero. split; reflexivity.
    + destruct (F64.isFinite (fround x)); cbn [negb] in H; [|discriminate H].
      injection H as <-. exists (fround x).
      split; [reflexivity | apply fround_idempotent].
  - destruct (F64.isNaN x) eqn:Hn.
    + injection H as <-. exists x. split; [reflexivity|].
      destruct x; try discriminate Hn. reflexivity.
    + destruct (is_neg_zero x); injection H as <-.
      * exists NegZero. split; reflexivity.
      * exists (fround x). split; [reflexivity | apply fround_idempotent].
Qed.

(** X16: a finite Number that is already a binary32 value (a significand
    below [2^24] scaled by a power of two not below [2^-149], magnitude
    below [2^128]) is returned unchanged by [float] and by
    [unrestricted float]. *)
Theorem float_keeps_single_precision_values
  (m e : Z) (o : opts.t) :
  Z.abs m < 2 ^ 24 ->
  925 <= e ->
  Z.abs (m * 2 ^ e) < 2 ^ 1202 ->
  opts.globals o = None ->
  export_float host (VNumber (Fin (m * 2 ^ e))) o
  = Normal (VNumber (Fin (m * 2 ^ e)))
  /\ export_unrestricted_float host (VNumber (Fin (m * 2 ^ e))) o
     = Normal (VNumber (Fin (m * 2 ^ e))).
Proof.
  intros Hm He Hmax Hg.
  unfold export_float, export_unrestricted_float, toNumber.
  rewrite Hg. cbn [ToNumber bind F64.isFinite F64.isNaN is_neg_zero negb].
  rewrite (fround_exact m e Hm He Hmax). split; reflexivity.
Qed.

(** X17: on a finite Number of magnitude [2^128] or more, [float] fails
    with the out-of-range error, while [unrestricted float] returns the
    infinity of the same sign. *)
Theorem float_overflow (k : Z) (o : opts.t) :
  2 ^ 1202 <= Z.abs k ->
  opts.globals o = None ->
  export_float host (VNumber (Fin k)) o
  = Throw (makeException TypeErrorCtor
       "is outside the range of a single-precision floating-point value" o)
  /\ export_unrestricted_float host (VNumber (Fin k)) o
     = Normal (VNumber (if k <? 0 then NegInf else PosInf)).
Proof.
  intros Hk Hg.
  assert (Hf : fround (Fin k) = if k <? 0 then NegInf else PosInf).
  { unfold fround, narrow.
    pose proof (round_even_ge_pow2 24 925 (Z.abs k) 1202
                  ltac:(lia) ltac:(lia) ltac:(lia) ltac:(lia) Hk) as Hr.
    apply Z.leb_le in Hr. change (128 + 1074) with 1202.
    rewrite Hr. reflexivity. }
  unfold export_float, export_unrestricted_float, toNumber.
  rewrite Hg. cbn [ToNumber bind F64.isFinite F64.isNaN is_neg_zero negb].
  rewrite Hf. split; destruct (k <? 0); reflexivity.
Qed.

End Floats.

(** ** [evenRound] *)

Lemma rem_scale_form (m e : Z) :
  Z.abs m < 2 ^ 53 -> 0 <= e ->
  exists m' e', Z.rem (m * 2 ^ e) scale = m' * 2 ^ e'
                /\ Z.abs m' < 2 ^ 53 /\ 0 <= e'.
Proof.
  intros Hm He.
  destruct (Z_le_gt_dec 1074 e) as [Hbig | Hsmall].
  - exists 0, 0. split; [|split; [reflexivity | lia]].
    replace (m * 2 ^ e) with (m * 2 ^ (e - 1074) * scale).
    + rewrite Z.rem_mul by apply scale_neq_0. reflexivity.
    + rewrite scale_eq, <- Z.mul_assoc, <- Z.pow_add_r by lia.
      f_equal. f_equal. lia.
  - exists (Z.rem m (2 ^ (1074 - e))), e.
    assert (Hb : 0 < 2 ^ (1074 - e)) by (apply Z.pow_pos_nonneg; lia).
    assert (Hc : 0 < 2 ^ e) by (apply Z.pow_pos_nonneg; lia).
    split; [|split; [|exact He]].
    + replace scale with (2 ^ (1074 - e) * 2 ^ e).
      * apply Z.mul_rem_distr_r; lia.
      * rewrite scale_eq, <- Z.pow_add_r by lia. f_equal. lia.
    + rewrite <- Z.rem_abs_l by lia.
      pose proof (Z.rem_le (Z.abs m) (2 ^ (1074 - e)) (Z.abs_nonneg m) Hb).
      lia.
Qed.

Lemma scale_lt_max : scale < 2 ^ 2098.
Proof. rewrite scale_eq. apply Z.pow_lt_mono_r; lia. Qed.

(** The fractional part [x - Math.trunc(x)] of a binary64 value is computed
    without rounding. *)
Lemma decimals_exact (m e : Z) :
  Z.abs m < 2 ^ 53 -> 0 <= e ->
  F64.sub (Fin (m * 2 ^ e)) (F64.trunc (Fin (m * 2 ^ e)))
  = Fin (Z.rem (m * 2 ^ e) scale).
Proof.
  intros Hm He.
  set (k := m * 2 ^ e).
  pose proof (Z.quot_rem' k scale) as Hqr.
  pose proof (Z.rem_bound_abs k scale scale_neq_0) as Hfb.
  pose proof scale_pos as HS. pose proof scale_lt_max as HSm.
  destruct (rem_scale_form m e Hm He) as [m' [e' [Hf [Hm' He']]]].
  fold k in Hf.
  assert (Hround : round64 (Z.rem k scale) = Fin (Z.rem k scale)).
  { rewrite Hf. apply round64_exact; try assumption. rewrite <- Hf. lia. }
  unfold F64.sub, F64.trunc.
  destruct ((Z.quot k scale =? 0) && (k <? 0)) eqn:Hc.
  - apply andb_true_iff in Hc. destruct Hc as [Ht _].
    apply Z.eqb_eq in Ht. rewrite Ht in Hqr.
    cbn [F64.neg F64.add Z.eqb].
    replace (k + 0) with (Z.rem k scale) by lia. exact Hround.
  - cbn [F64.neg].
    destruct (Z.quot k scale * scale =? 0) eqn:Hz.
    + apply Z.eqb_eq in Hz. cbn [F64.add]. f_equal. lia.
    + cbn [F64.add].
      replace (k + - (Z.quot k scale * scale)) with (Z.rem k scale) by lia.
      exact Hround.
Qed.

(** The parity bit [(int | 0) & 1] is the parity of the integer part. *)
Lemma toInt32_parity (k : Z) :
  Z.land (toInt32 (F64.trunc (Fin k))) 1 = Z.quot k scale mod 2.
Proof.
  unfold F64.trunc.
  destruct ((Z.quot k scale =? 0) && (k <? 0)) eqn:Hc.
  - apply andb_true_iff in Hc. destruct Hc as [Ht _].
    apply Z.eqb_eq in Ht. rewrite Ht. reflexivity.
  - unfold toInt32. rewrite quot_of_int.
    set (t := Z.quot k scale).
    change 1 with (Z.ones 1) at 1. rewrite Z.land_ones by lia.
    change (2 ^ 1) with 2.
    pose proof (Z.mod_pos_bound t (2 ^ 32) ltac:(lia)) as Hu.
    assert (Hmm : (t mod 2 ^ 32) mod 2 = t mod 2).
    { apply Z.mod_mod_divide. exists (2 ^ 31). reflexivity. }
    destruct (2 ^ 31 <=? t mod 2 ^ 32).
    + replace (t mod 2 ^ 32 - 2 ^ 32)
        with (t mod 2 ^ 32 + (- 2 ^ 31) * 2) by lia.
      rewrite Z.mod_add by lia. exact Hmm.
    + exact Hmm.
Qed.

Lemma censor_floor (k : Z) :
  censorNegativeZero (F64.floor (Fin k)) = of_int (k / scale).
Proof. apply (censorNegativeZero_of_int (k / scale)). Qed.

Lemma censor_round (k : Z) :
  censorNegativeZero (F64.round (Fin k))
  = of_int ((2 * k + scale) / (2 * scale)).
Proof.
  unfold F64.round.
  destruct (((2 * k + scale) / (2 * scale) =? 0) && (k <? 0)) eqn:Hc.
  - apply andb_true_iff in Hc. destruct Hc as [Hq _].
    apply Z.eqb_eq in Hq. rewrite Hq. reflexivity.
  - apply (censorNegativeZero_of_int ((2 * k + scale) / (2 * scale))).
Qed.

(** Truncating and flooring division by a positive number. *)
Lemma quot_rem_floor (S k : Z) :
  0 < S ->
  (0 <= k \/ k mod S = 0 ->
     Z.quot k S = k / S /\ Z.rem k S = k mod S)
  /\ (k < 0 -> k mod S <> 0 ->
      Z.quot k S = k / S + 1 /\ Z.rem k S = k mod S - S).
Proof.
  intros HS.
  pose proof (Z.div_mod k S ltac:(lia)) as Hdm.
  pose proof (Z.mod_pos_bound k S HS) as Hmb.
  pose proof (Z.quot_rem' k S) as Hqr.
  split.
  - intros [Hk | Hz].
    + split; [apply Z.quot_div_nonneg | apply Z.rem_mod_nonneg]; lia.
    + assert (Hq : Z.quot k S = k / S).
      { apply Z.quot_div_exact; [lia|].
        apply Z.mod_divide; [lia | exact Hz]. }
      split; [exact Hq|]. rewrite Hq in Hqr. lia.
  - intros Hk Hnz.
    assert (Hq : Z.quot k S = k / S + 1).
    { rewrite <- (Z.opp_involutive k) at 1.
      rewrite Z.quot_opp_l by lia.
      rewrite Z.quot_div_nonneg by lia.
      rewrite Z.div_opp_l_nz by lia. lia. }
    split; [exact Hq|]. rewrite Hq in Hqr. lia.
Qed.

Lemma round_half_up_floor (S k : Z) :
  0 < S ->
  (2 * k + S) / (2 * S)
  = if 2 * (k mod S) <? S then k / S else k / S + 1.
Proof.
  intros HS.
  pose proof (Z.div_mod k S ltac:(lia)) as Hdm.
  pose proof (Z.mod_pos_bound k S HS) as Hmb.
  destruct (2 * (k mod S) <? S) eqn:Hc.
  - apply Z.ltb_lt in Hc. symmetry.
    apply (Z.div_unique (2 * k + S) (2 * S) (k / S) (2 * (k mod S) + S));
      [left; lia | lia].
  - apply Z.ltb_ge in Hc. symmetry.
    apply (Z.div_unique (2 * k + S) (2 * S) (k / S + 1)
             (2 * (k mod S) - S)); [left; lia | lia].
Qed.

Lemma mod2_cases (a : Z) :
  (Z.even a = true /\ a mod 2 = 0 /\ (a + 1) mod 2 = 1)
  \/ (Z.even a = false /\ a mod 2 = 1 /\ (a + 1) mod 2 = 0).
Proof.
  pose proof (Zmod_even a) as Ha.
  pose proof (Zmod_even (a + 1)) as Hb.
  rewrite Z.even_add in Hb. change (Z.even 1) with false in Hb.
  destruct (Z.even a); cbn in Hb; [left | right]; repeat split; assumption.
Qed.

(** The choice [evenRound] makes between [floor] and [round], on
    integers. *)
Lemma evenRound_choice (S H k : Z) :
  0 < H -> S = 2 * H ->
  (if ((0 <? k) && (Z.rem k S =? H) && (Z.quot k S mod 2 =? 0))
      || ((k <? 0) && (Z.rem k S =? - H) && (Z.quot k S mod 2 =? 1))
   then k / S else (2 * k + S) / (2 * S))
  = (if 2 * (k mod S) <? S then k / S
     else if S <? 2 * (k mod S) then k / S + 1
     else if Z.even (k / S) then k / S else k / S + 1).
Proof.
  intros HH HS2.
  assert (HS : 0 < S) by lia.
  rewrite (round_half_up_floor S k HS).
  pose proof (Z.mod_pos_bound k S HS) as Hmb.
  destruct (quot_rem_floor S k HS) as [Hpos Hneg].
  set (q := k / S) in *. set (r := k mod S) in *.
  destruct (mod2_cases q) as [[Hev [Hq0 Hq1]] | [Hev [Hq0 Hq1]]];
    rewrite Hev.
  - (* q even *)
    destruct (Z_lt_le_dec k 0) as [Hk | Hk].
    + destruct (Z.eq_dec r 0) as [Hr | Hr].
      * destruct (Hpos (or_intror Hr)) as [Ht Hf]. rewrite Ht, Hf, Hq0, Hr.
        assert (E1 : (0 <? k) = false) by (apply Z.ltb_ge; lia).
        assert (E2 : (0 =? - H) = false) by (apply Z.eqb_neq; lia).
        assert (E3 : (2 * 0 <? S) = true) by (apply Z.ltb_lt; lia).
        rewrite E1, E2, E3. cbn [andb orb].
        rewrite andb_false_r. reflexivity.
      * destruct (Hneg Hk Hr) as [Ht Hf]. rewrite Ht, Hf, Hq1.
        assert (E1 : (0 <? k) = false) by (apply Z.ltb_ge; lia).
        assert (E2 : (k <? 0) = true) by (apply Z.ltb_lt; lia).
        rewrite E1, E2. cbn [andb orb Z.eqb]. rewrite andb_true_r.
        destruct (r - S =? - H) eqn:E3.
        -- apply Z.eqb_eq in E3.
           assert (E4 : (2 * r <? S) = false) by (apply Z.ltb_ge; lia).
           assert (E5 : (S <? 2 * r) = false) by (apply Z.ltb_ge; lia).
           rewrite E4, E5. reflexivity.
        -- apply Z.eqb_neq in E3.
           destruct (2 * r <? S) eqn:E4; [reflexivity|].
           apply Z.ltb_ge in E4.
           assert (E5 : (S <? 2 * r) = true) by (apply Z.ltb_lt; lia).
           rewrite E5. reflexivity.
    + destruct (Hpos (or_introl Hk)) as [Ht Hf]. rewrite Ht, Hf, Hq0.
      assert (E2 : (k <? 0) = false) by (apply Z.ltb_ge; lia).
      rewrite E2. cbn [andb orb Z.eqb]. rewrite orb_false_r, andb_true_r.
      destruct (r =? H) eqn:E3.
      * apply Z.eqb_eq in E3.
        assert (E1 : (0 <? k) = true).
        { apply Z.ltb_lt. pose proof (Z.div_mod k S ltac:(lia)).
          fold q r in H0. destruct (Z.eq_dec k 0) as [-> | ]; [|lia].
          unfold r in E3. rewrite Z.mod_0_l in E3 by lia. lia. }
        assert (E4 : (2 * r <? S) = false) by (apply Z.ltb_ge; lia).
        assert (E5 : (S <? 2 * r) = false) by (apply Z.ltb_ge; lia).
        rewrite E1, E4, E5. reflexivity.
      * apply Z.eqb_neq in E3. rewrite andb_false_r.
        destruct (2 * r <? S) eqn:E4; [reflexivity|].
        apply Z.ltb_ge in E4.
        assert (E5 : (S <? 2 * r) = true) by (apply Z.ltb_lt; lia).
        rewrite E5. reflexivity.
  - (* q odd *)
    destruct (Z_lt_le_dec k 0) as [Hk | Hk].
    + destruct (Z.eq_dec r 0) as [Hr | Hr].
      * destruct (Hpos (or_intror Hr)) as [Ht Hf]. rewrite Ht, Hf, Hq0, Hr.
        assert (E1 : (0 <? k) = false) by (apply Z.ltb_ge; lia).
        assert (E2 : (0 =? - H) = false) by (apply Z.eqb_neq; lia).
        assert (E3 : (2 * 0 <? S) = true) by (apply Z.ltb_lt; lia).
        rewrite E1, E2, E3. cbn [andb orb].
        rewrite andb_false_r. reflexivity.
      * destruct (Hneg Hk Hr) as [Ht Hf]. rewrite Ht, Hf, Hq1.
        assert (E1 : (0 <? k) = false) by (apply Z.ltb_ge; lia).
        rewrite E1. cbn [andb orb Z.eqb]. rewrite andb_false_r.
        destruct (2 * r <? S) eqn:E4; [reflexivity|].
        apply Z.ltb_ge in E4.
        destruct (S <? 2 * r); reflexivity.
    + destruct (Hpos (or_introl Hk)) as [Ht Hf]. rewrite Ht, Hf, Hq0.
      assert (E2 : (k <? 0) = false) by (apply Z.ltb_ge; lia).
      rewrite E2. cbn [andb orb Z.eqb]. rewrite andb_false_r.
      destruct (2 * r <? S) eqn:E4; [reflexivity|].
      destruct (S <? 2 * r); reflexivity.
Qed.

(** X18: on every finite binary64 value (a significand below [2^53]
    scaled by a power of two) [evenRound] returns the nearest integer, and
    the even one of the two when the value lies halfway between them; the
    result is never [-0]. *)
Theorem evenRound_nearest_even (m e : Z) :
  Z.abs m < 2 ^ 53 ->
  0 <= e ->
  evenRound (Fin (m * 2 ^ e)) = of_int (nearest_even (m * 2 ^ e)).
Proof.
  intros Hm He.
  assert (Hhalf : exists H, 0 < H /\ scale = 2 * H
                            /\ dyadic 1 (-1) = Fin H
                            /\ dyadic (-1) (-1) = Fin (- H)).
  { exists (2 ^ 1073). repeat split; vm_compute; reflexivity. }
  destruct Hhalf as [H [HH [HS [Hd1 Hd2]]]].
  unfold evenRound. cbv zeta.
  rewrite (decimals_exact m e Hm He), toInt32_parity, Hd1, Hd2.
  set (k := m * 2 ^ e).
  change (F64.gt (Fin k) (Fin 0)) with (0 <? k).
  change (F64.lt (Fin k) (Fin 0)) with (k <? 0).
  change (F64.strict_eq (Fin (Z.rem k scale)) (Fin H))
    with (Z.rem k scale =? H).
  change (F64.strict_eq (Fin (Z.rem k scale)) (Fin (- H)))
    with (Z.rem k scale =? - H).
  pose proof (evenRound_choice scale H k HH HS) as Hchoice.
  unfold nearest_even. cbv zeta. rewrite <- Hchoice.
  destruct (((0 <? k) && (Z.rem k scale =? H)
             && (Z.quot k scale mod 2 =? 0))
            || ((k <? 0) && (Z.rem k scale =? - H)
                && (Z.quot k scale mod 2 =? 1))).
  - apply censor_floor.
  - apply censor_round.
Qed.

Lemma nearest_even_of_int (z : Z) : nearest_even (z * scale) = z.
Proof.
  unfold nearest_even. cbv zeta. pose proof scale_pos.
  rewrite Z.mod_mul, Z.div_mul by apply scale_neq_0.
  assert (E : (2 * 0 <? scale) = true) by (apply Z.ltb_lt; lia).
  rewrite E. reflexivity.
Qed.

Lemma nearest_even_bounds (lo hi k : Z) :
  lo * scale <= k <= hi * scale ->
  lo <= nearest_even k <= hi.
Proof.
  intros [Hl Hu]. unfold nearest_even. cbv zeta.
  pose proof scale_pos as HS.
  pose proof (Z.div_mod k scale scale_neq_0) as Hdm.
  pose proof (Z.mod_pos_bound k scale HS) as Hmb.
  assert (Hq1 : lo <= k / scale) by (apply Z.div_le_lower_bound; lia).
  assert (Hq2 : k / scale <= hi) by (apply Z.div_le_upper_bound; lia).
  destruct (2 * (k mod scale) <? scale) eqn:E1; [lia|].
  apply Z.ltb_ge in E1.
  assert (Hlt : k / scale < hi) by nia.
  destruct (scale <? 2 * (k mod scale)); [lia|].
  destruct (Z.even (k / scale)); lia.
Qed.

Lemma censorNegativeZero_Fin (k : Z) : censorNegativeZero (Fin k) = Fin k.
Proof.
  unfold censorNegativeZero. rewrite strict_eq_Fin_0.
  destruct (k =? 0) eqn:Hk; [|reflexivity].
  apply Z.eqb_eq in Hk. subst k. reflexivity.
Qed.

Lemma max_Fin (a b : Z) : F64.max (Fin a) (Fin b) = Fin (Z.max a b).
Proof.
  unfold F64.max. cbn [F64.isNaN orb F64.lt val is_neg_zero].
  destruct (a <? b) eqn:H1.
  - apply Z.ltb_lt in H1. f_equal. lia.
  - apply Z.ltb_ge in H1. destruct (b <? a); f_equal; lia.
Qed.

Lemma min_Fin (a b : Z) : F64.min (Fin a) (Fin b) = Fin (Z.min a b).
Proof.
  unfold F64.min. cbn [F64.isNaN orb F64.lt val is_neg_zero].
  destruct (a <? b) eqn:H1.
  - apply Z.ltb_lt in H1. f_equal. lia.
  - apply Z.ltb_ge in H1. destruct (b <? a) eqn:H2.
    + apply Z.ltb_lt in H2. f_equal. lia.
    + apply Z.ltb_ge in H2. f_equal. lia.
Qed.

(** [clamp] with Number bounds on a finite Number. *)
Lemma clamp_Fin (k lo hi : Z) :
  clamp (Num (Fin k)) (Num (of_int lo)) (Num (of_int hi))
  = Normal (Fin (Z.min (Z.max k (lo * scale)) (hi * scale))).
Proof.
  unfold clamp, Math_max, Math_min, Math_arg, of_int. cbn [bind].
  rewrite max_Fin, min_Fin. reflexivity.
Qed.

Section Clamp.

Variable host : Host.

(** X19: under [clamp] (without [enforceRange] or an alternate realm) the
    64-bit converters return an integer Number within
    [[lowerBound, upperBound]]: the bound itself when the input lies
    beyond it (the infinities included), and otherwise the input rounded to
    the nearest integer, ties to even. *)
Theorem long_long_clamp_policy
  (unsigned : bool) (m e : Z) (o : opts.t) :
  opts.enforceRange o = false ->
  opts.clamp o = true ->
  opts.globals o = None ->
  Z.abs m < 2 ^ 53 ->
  0 <= e ->
  let lo := if unsigned then 0 else MIN_SAFE_INTEGER in
  let hi := MAX_SAFE_INTEGER in
  let k := m * 2 ^ e in
  let c := createLongLongConversion host 64 unsigned in
  (exists r : Z,
      c (VNumber (Fin k)) o = Normal (VNumber (of_int r))
      /\ lo <= r <= hi
      /\ (lo * scale <= k <= hi * scale -> r = nearest_even k)
      /\ (k < lo * scale -> r = lo)
      /\ (hi * scale < k -> r = hi))
  /\ c (VNumber PosInf) o = Normal (VNumber (of_int hi))
  /\ c (VNumber NegInf) o = Normal (VNumber (of_int lo)).
Proof.
  intros He Hc Hg Hm He0 lo hi k c.
  assert (Hlo : (if unsigned then Num (Fin 0)
                 else Num (of_int MIN_SAFE_INTEGER)) = Num (of_int lo)).
  { unfold lo. destruct unsigned; reflexivity. }
  assert (Hlohi : lo <= hi /\ Z.abs lo < 2 ^ 53 /\ Z.abs hi < 2 ^ 53).
  { unfold lo, hi, MIN_SAFE_INTEGER, MAX_SAFE_INTEGER.
    destruct unsigned; lia. }
  destruct Hlohi as [Hlh [Hlob Hhib]].
  pose proof scale_pos as HS.
  assert (Hround_int : forall z, Z.abs z < 2 ^ 53 ->
            evenRound (Fin (z * scale)) = of_int z).
  { intros z Hz. rewrite scale_eq.
    rewrite (evenRound_nearest_even z 1074 Hz ltac:(lia)).
    rewrite <- scale_eq, nearest_even_of_int. reflexivity. }
  split; [|split].
  - set (cl := Z.min (Z.max k (lo * scale)) (hi * scale)).
    assert (Hrun : c (VNumber (Fin k)) o
                   = Normal (VNumber (evenRound (Fin cl)))).
    { unfold c, createLongLongConversion. cbv beta iota zeta.
      unfold toNumber. rewrite Hg. cbn [ToNumber bind].
      rewrite censorNegativeZero_Fin, He, Hc, Hlo.
      cbn [F64.isNaN negb andb].
      fold hi. rewrite (clamp_Fin k lo hi). reflexivity. }
    destruct (Z_lt_le_dec k (lo * scale)) as [Hlow | Hlow].
    + exists lo. rewrite Hrun.
      assert (Hcl : cl = lo * scale) by (unfold cl; nia).
      rewrite Hcl, (Hround_int lo Hlob).
      repeat split; lia.
    + destruct (Z_lt_le_dec (hi * scale) k) as [Hhigh | Hhigh].
      * exists hi. rewrite Hrun.
        assert (Hcl : cl = hi * scale) by (unfold cl; nia).
        rewrite Hcl, (Hround_int hi Hhib).
        repeat split; lia.
      * exists (nearest_even k). rewrite Hrun.
        assert (Hcl : cl = k) by (unfold cl; lia).
        rewrite Hcl. unfold k at 1.
        rewrite (evenRound_nearest_even m e Hm He0). fold k.
        pose proof (nearest_even_bounds lo hi k (conj Hlow Hhigh)).
        repeat split; lia.
  - unfold c, createLongLongConversion. cbv beta iota zeta.
    unfold toNumber. rewrite Hg. cbn [ToNumber bind].
    rewrite He, Hc. destruct unsigned; vm_compute; reflexivity.
  - unfold c, createLongLongConversion. cbv beta iota zeta.
    unfold toNumber. rewrite Hg. cbn [ToNumber bind].
    rewrite He, Hc. destruct unsigned; vm_compute; reflexivity.
Qed.

End Clamp.

Lemma float_results_are_single_precision_witness :
  (export_float plain_host (VNumber (of_ratio 1 10)) opts.empty
   = Normal (VNumber (dyadic 13421773 (-27)))
   \/ export_unrestricted_float plain_host (VNumber (of_ratio 1 10))
        opts.empty
      = Normal (VNumber (dyadic 13421773 (-27))))
  /\ exists y, VNumber (dyadic 13421773 (-27)) = VNumber y /\ fround y = y.
Proof.
  assert (H : export_float plain_host (VNumber (of_ratio 1 10)) opts.empty
              = Normal (VNumber (dyadic 13421773 (-27)))).
  { vm_compute. reflexivity. }
  split; [left; exact H|].
  exact (float_results_are_single_precision plain_host
           (VNumber (of_ratio 1 10)) (VNumber (dyadic 13421773 (-27)))
           opts.empty (or_introl H)).
Defined.

Lemma float_keeps_single_precision_values_witness :
  Z.abs (-3) < 2 ^ 24
  /\ 925 <= 1073
  /\ Z.abs (-3 * 2 ^ 1073) < 2 ^ 1202
  /\ opts.globals opts.empty = None
  /\ export_float plain_host (VNumber (Fin (-3 * 2 ^ 1073))) opts.empty
     = Normal (VNumber (Fin (-3 * 2 ^ 1073))).
Proof.
  assert (H1 : Z.abs (-3) < 2 ^ 24) by (vm_compute; reflexivity).
  assert (H2 : 925 <= 1073) by (vm_compute; discriminate).
  assert (H3 : Z.abs (-3 * 2 ^ 1073) < 2 ^ 1202) by (vm_compute; reflexivity).
  split; [exact H1|]. split; [exact H2|]. split; [exact H3|].
  split; [reflexivity|].
  exact (proj1 (float_keeps_single_precision_values plain_host (-3) 1073
                  opts.empty H1 H2 H3 eq_refl)).
Defined.

Lemma float_overflow_witness :
  2 ^ 1202 <= Z.abs (- (34 * 10 ^ 38) * scale)
  /\ opts.globals opts.empty = None
  /\ export_float plain_host (VNumber (Fin (- (34 * 10 ^ 38) * scale)))
       opts.empty
     = Throw (makeException TypeErrorCtor
          "is outside the range of a single-precision floating-point value"
          opts.empty)
  /\ export_unrestricted_float plain_host
       (VNumber (Fin (- (34 * 10 ^ 38) * scale))) opts.empty
     = Normal (VNumber NegInf).
Proof.
  assert (H1 : 2 ^ 1202 <= Z.abs (- (34 * 10 ^ 38) * scale)).
  { vm_compute. discriminate. }
  split; [exact H1|]. split; [reflexivity|].
  destruct (float_overflow plain_host (- (34 * 10 ^ 38) * scale) opts.empty
              H1 eq_refl) as [Hf Hu].
  split; [exact Hf|].
  rewrite Hu. vm_compute. reflexivity.
Defined.

Lemma evenRound_nearest_even_witness :
  Z.abs 5 < 2 ^ 53
  /\ 0 <= 1073
  /\ evenRound (Fin (5 * 2 ^ 1073)) = of_int 2
  /\ evenRound (Fin (-7 * 2 ^ 1073)) = of_int (-4).
Proof.
  assert (H1 : Z.abs 5 < 2 ^ 53) by (vm_compute; reflexivity).
  assert (H1' : Z.abs (-7) < 2 ^ 53) by (vm_compute; reflexivity).
  assert (H2 : 0 <= 1073) by (vm_compute; discriminate).
  split; [exact H1|]. split; [exact H2|]. split.
  - rewrite (evenRound_nearest_even 5 1073 H1 H2). vm_compute. reflexivity.
  - rewrite (evenRound_nearest_even (-7) 1073 H1' H2). vm_compute.
    reflexivity.
Defined.

Lemma long_long_clamp_policy_witness :
  opts.enforceRange clamp_opts = false
  /\ opts.clamp clamp_opts = true
  /\ opts.globals clamp_opts = None
  /\ Z.abs (-5) < 2 ^ 53
  /\ 0 <= 1073
  /\ (exists r : Z,
        export_unsigned_long_long plain_host (VNumber (Fin (-5 * 2 ^ 1073)))
          clamp_opts
        = Normal (VNumber (of_int r))
        /\ 0 <= r <= MAX_SAFE_INTEGER
        /\ (-5 * 2 ^ 1073 < 0 * scale -> r = 0))
  /\ export_unsigned_long_long plain_host (VNumber PosInf) clamp_opts
     = Normal (VNumber (of_int MAX_SAFE_INTEGER)).
Proof.
  assert (H1 : Z.abs (-5) < 2 ^ 53) by (vm_compute; reflexivity).
  assert (H2 : 0 <= 1073) by (vm_compute; discriminate).
  split; [reflexivity|]. split; [reflexivity|]. split; [reflexivity|].
  split; [exact H1|]. split; [exact H2|].
  destruct (long_long_clamp_policy plain_host true (-5) 1073 clamp_opts
              eq_refl eq_refl eq_refl H1 H2)
    as [[r [Hr [Hb [_ [Hlow _]]]]] [Hinf _]].
  split; [|exact Hinf].
  exists r. split; [exact Hr|]. split; [exact Hb | exact Hlow].
Defined.

(** X20: with [treatNullAsEmptyString] set, [null] converts to the empty
    string in [DOMString], and so it does in [ByteString] and [USVString],
    whose loops have nothing to scan; the other options do not matter. *)
Theorem null_as_empty_string (host : Host) (o : opts.t) :
  opts.treatNullAsEmptyString o = true ->
  export_DOMString host VNull o = Normal []
  /\ export_ByteString host VNull o = Normal (VString [])
  /\ export_USVString host VNull o = Normal (VString []).
Proof.
  intros Ht.
  unfold export_ByteString, export_USVString, export_DOMString.
  rewrite Ht. repeat split.
Qed.

Lemma null_as_empty_string_witness :
  opts.treatNullAsEmptyString
    {| opts.enforceRange := false; opts.clamp := false;
       opts.treatNullAsEmptyString := true; opts.allowShared := false;
       opts.context := EmptyString; opts.globals := None |} = true
  /\ export_USVString plain_host VNull
       {| opts.enforceRange := false; opts.clamp := false;
          opts.treatNullAsEmptyString := true; opts.allowShared := false;
          opts.context := EmptyString; opts.globals := None |}
     = Normal (VString []).
Proof.
  split; [reflexivity|].
  exact (proj2 (proj2 (null_as_empty_string plain_host
    {| opts.enforceRange := false; opts.clamp := false;
       opts.treatNullAsEmptyString := true; opts.allowShared := false;
       opts.context := EmptyString; opts.globals := None |} eq_refl))).
Defined.
